(** * aircmd: reusable container environments (aircmd/actions/environments.py)

    A shallow embedding of the environment builders of
    [src/aircmd/actions/environments.py].  A dagger [Container] is an
    immutable builder value: every [with_*] call returns a new container
    made of the receiver's steps followed by one more step.  The embedding
    keeps that reading: a container is the list of the steps applied to it,
    oldest first, and the builders append.

    Calls that wait for the engine ([get_file_contents], [with_exit_code],
    [Container.stdout]) are answered by an engine that is a parameter of
    the development; the awaited calls and the log lines are recorded in a
    trace, and a failing awaited call raises. *)

From Stdlib Require Import String Ascii List ZArith Bool Lia.
Import ListNotations.

Notation "a +++ b" := (String.append a b)
  (at level 60, right associativity) : string_scope.

Local Open Scope string_scope.
Local Open Scope list_scope.
Local Set Warnings "-register-all".

(* ================================================================= *)
(** ** Python string operations used by the module *)

Module Py.

(** The line feed, ["\n"]. *)
Definition LF : ascii := ascii_of_nat 10.
Definition newline : string := String LF EmptyString.

(** [s.startswith(pre)]. *)
Definition startswith (s pre : string) : bool := String.prefix pre s.

(** [s[n:]]. *)
Fixpoint drop (n : nat) (s : string) : string :=
  match n, s with
  | O, _ => s
  | S _, EmptyString => EmptyString
  | S k, String _ t => drop k t
  end.

(** [s.split(sep)] for a one-character separator: the empty string
    splits to [[""]], and a trailing separator leaves a last empty
    field. *)
Fixpoint split (sep : ascii) (s : string) : list string :=
  match s with
  | EmptyString => [EmptyString]
  | String c t =>
      if Ascii.eqb c sep then EmptyString :: split sep t
      else match split sep t with
           | [] => [String c EmptyString]
           | w :: ws => String c w :: ws
           end
  end.

(** [needle in hay]. *)
Fixpoint contains (needle hay : string) : bool :=
  String.prefix needle hay
  || match hay with
     | EmptyString => false
     | String _ t => contains needle t
     end.

(** [s.replace(old, new)]: the occurrences of [old] are replaced from
    the left, without overlap.  [skip] counts the characters of [s] still
    covered by the occurrence just replaced. *)
Fixpoint replace_from (old new : string) (skip : nat) (s : string) : string :=
  match s with
  | EmptyString => EmptyString
  | String c t =>
      match skip with
      | S k => replace_from old new k t
      | O =>
          if String.prefix old s
          then new +++ replace_from old new (String.length old - 1) t
          else String c (replace_from old new 0 t)
      end
  end.

(** With an empty [old], Python puts [new] before every character and
    at the end. *)
Fixpoint intersperse (new s : string) : string :=
  match s with
  | EmptyString => new
  | String c t => new +++ String c (intersperse new t)
  end.

Definition replace (old new s : string) : string :=
  match old with
  | EmptyString => intersperse new s
  | String _ _ => replace_from old new 0 s
  end.

(** [sep.join(items)]. *)
Definition join (sep : string) (items : list string) : string :=
  String.concat sep items.

(** [l[:-1]] and [l[-1]] on a list of strings. *)
Definition but_last (l : list string) : list string := removelast l.
Definition last_item (l : list string) : string := last l EmptyString.

End Py.

(* ================================================================= *)
(** ** aircmd/actions/strings.py *)

Definition is_upper (c : ascii) : bool :=
  let n := nat_of_ascii c in (65 <=? n)%nat && (n <=? 90)%nat.

Definition is_alnum (c : ascii) : bool :=
  let n := nat_of_ascii c in
  ((48 <=? n)%nat && (n <=? 57)%nat)
  || ((65 <=? n)%nat && (n <=? 90)%nat)
  || ((97 <=? n)%nat && (n <=? 122)%nat).

Definition lower (c : ascii) : ascii :=
  if is_upper c then ascii_of_nat (nat_of_ascii c + 32) else c.

Fixpoint slug_from (in_run : bool) (s : string) : string :=
  match s with
  | EmptyString => EmptyString
  | String c t =>
      if is_alnum c then String (lower c) (slug_from false t)
      else if in_run then slug_from true t
      else String "-"%char (slug_from true t)
  end.

(** Modelled from the spec: [slugify] of [aircmd/actions/strings.py] is
    not among the sources.  The spec (4.3) describes it as a slug
    transform, "lower-case, non-alphanumeric runs collapsed to single
    hyphens". *)
Definition slugify (value : string) : string := slug_from false value.

(* ================================================================= *)
(** ** The dagger data model *)

Inductive CacheSharingMode : Type :=
| SHARED
| PRIVATE
| LOCKED.

(** [dagger_client.cache_volume(key)]. *)
Record CacheVolume : Type := cache_volume { cache_key : string }.

(** Modelled from the spec: [get_repo_dir] of
    [aircmd/actions/pipelines.py] is not among the sources.  The spec (2,
    RepoSnapshot) describes its result as a filtered view of the source
    tree under a path, given include and exclude globs; the view is
    represented by the arguments that select it. *)
Record Directory : Type := get_repo_dir {
  repo_path : string;
  repo_include : option (list string);
  repo_exclude : option (list string)
}.

(** A dagger [File] handle. *)
Record File : Type := file_handle { file_id : string }.

(** One layering operation of a container.  [WithMountedCache] keeps the
    [sharing] keyword as the call gives it: [None] when it is left out. *)
Inductive step : Type :=
| From (address : string)
| WithMountedCache (path : string) (cache : CacheVolume)
    (sharing : option CacheSharingMode)
| WithMountedDirectory (path : string) (source : Directory)
| WithMountedFile (path : string) (source : File)
| WithWorkdir (path : string)
| WithEnvVariable (name value : string)
| WithExposedPort (port : Z)
| WithExec (args : list string) (insecure_root_capabilities : bool)
| WithServiceBinding (alias : string) (service : list step).

(** A [Container]: the steps applied so far, oldest first. *)
Definition Container : Type := list step.

(** [dagger_client.container()]. *)
Definition new_container : Container := [].

Definition from_ (c : Container) (address : string) : Container :=
  c ++ [From address].

Definition with_mounted_cache (c : Container) (path : string)
    (cache : CacheVolume) (sharing : option CacheSharingMode) : Container :=
  c ++ [WithMountedCache path cache sharing].

Definition with_mounted_directory (c : Container) (path : string)
    (source : Directory) : Container :=
  c ++ [WithMountedDirectory path source].

Definition with_mounted_file (c : Container) (path : string)
    (source : File) : Container :=
  c ++ [WithMountedFile path source].

Definition with_workdir (c : Container) (path : string) : Container :=
  c ++ [WithWorkdir path].

Definition with_env_variable (c : Container) (name value : string) : Container :=
  c ++ [WithEnvVariable name value].

Definition with_exposed_port (c : Container) (port : Z) : Container :=
  c ++ [WithExposedPort port].

Definition with_exec (c : Container) (args : list string) : Container :=
  c ++ [WithExec args false].

Definition with_exec_insecure (c : Container) (args : list string) : Container :=
  c ++ [WithExec args true].

Definition with_service_binding (c : Container) (alias : string)
    (service : Container) : Container :=
  c ++ [WithServiceBinding alias service].

(** The fields of [GlobalSettings] (aircmd/models/base.py, not among the
    sources) that the builders read.  Their values are left open. *)
Record GlobalSettings : Type := {
  DEFAULT_PYTHON_EXCLUDE : list string;
  DOCKER_DIND_IMAGE : string;
  DOCKER_CLI_IMAGE : string;
  DOCKER_VERSION : string;
  GRADLE_BUILD_CACHE_PATH : string;
  GRADLE_READ_ONLY_DEPENDENCY_CACHE_PATH : string
}.

(* ================================================================= *)
(** ** Errors *)

Inductive exn : Type :=
| ValueError (msg : string)
| ExecError (exit_code : Z).

Inductive result (A : Type) : Type :=
| Ok (a : A)
| Err (e : exn).

Arguments Ok {A} a.
Arguments Err {A} e.

(** The steps a builder call leaves behind: none when it raised. *)
Definition steps_issued (r : result Container) : list step :=
  match r with
  | Ok c => c
  | Err _ => []
  end.

(* ================================================================= *)
(** ** The builders of environments.py

    The [context] argument only gives access to the dagger client, which
    the model has as [new_container] and [cache_volume], and to the logger,
    which the model has as [logger_info]; it is left out of the
    signatures.  A test of the truth value of an optional string or list
    ([if docker_service_name:], [if exclude:]) is a match that takes the
    non-empty value and sends [None] and the empty value the other
    way. *)

Definition with_python_base (python_image_name : string) : result Container :=
  if negb (Py.startswith python_image_name "python:3") then
    Err (ValueError
           "You have to use a python image to build the python base environment")
  else
    let pip_cache := cache_volume "pip_cache" in
    let base_container :=
      with_exec
        (with_mounted_cache (from_ new_container python_image_name)
           "/root/.cache/pip" pip_cache None)
        ["pip"; "install"; "--upgrade"; "pip"] in
    Ok base_container.

Definition with_python_package (settings : GlobalSettings)
    (python_environment : Container) (package_source_code_path : string)
    (exclude : option (list string)) : Container :=
  let exclude :=
    match exclude with
    | Some (e :: es) => DEFAULT_PYTHON_EXCLUDE settings ++ (e :: es)
    | _ => DEFAULT_PYTHON_EXCLUDE settings
    end in
  let package_source_code_directory :=
    get_repo_dir package_source_code_path None (Some exclude) in
  with_workdir
    (with_mounted_directory python_environment
       ("/" +++ package_source_code_path) package_source_code_directory)
    ("/" +++ package_source_code_path).

Definition install_local_requirements_cmd : list string :=
  ["python"; "-m"; "pip"; "install"; "-r"; "requirements.txt"].

Definition install_connector_package_cmd : list string :=
  ["python"; "-m"; "pip"; "install"; "."].

(** The body of the loop over the lines of requirements.txt. *)
Definition mount_local_dependency (settings : GlobalSettings)
    (package_source_code_path : string) (c : Container) (line : string)
    : Container :=
  if Py.startswith line "-e ." then
    let local_dependency_path :=
      package_source_code_path +++ "/" +++ Py.drop 3 line in
    with_mounted_directory c ("/" +++ local_dependency_path)
      (get_repo_dir local_dependency_path None
         (Some (DEFAULT_PYTHON_EXCLUDE settings)))
  else c.

Section Engine.

(** What the engine answers when a file of a container is read: [None]
    when the file cannot be read. *)
Variable file_contents : Container -> string -> option string.

(** Modelled from the spec: [get_file_contents] of
    [aircmd/actions/pipelines.py] is not among the sources.  The spec
    (4.2 step 2, 7 ManifestReadFailure) has a manifest that cannot be
    read treated as no manifest, not as an error. *)
Definition get_file_contents (c : Container) (path : string) : option string :=
  file_contents c path.

Definition with_installed_python_package (settings : GlobalSettings)
    (python_environment : Container) (package_source_code_path : string)
    (additional_dependency_groups : option (list string))
    (exclude : option (list string)) : Container :=
  let c :=
    with_python_package settings python_environment
      package_source_code_path exclude in
  let c :=
    match get_file_contents c "requirements.txt" with
    | Some (String _ _ as requirements_txt) =>
        let c :=
          fold_left
            (mount_local_dependency settings package_source_code_path)
            (Py.split Py.LF requirements_txt) c in
        with_exec c install_local_requirements_cmd
    | _ => c
    end in
  let c := with_exec c install_connector_package_cmd in
  match additional_dependency_groups with
  | Some (g :: gs) =>
      with_exec c
        (Py.but_last install_connector_package_cmd
         ++ [Py.last_item install_connector_package_cmd
             +++ "[" +++ Py.join "," (g :: gs) +++ "]"])
  | _ => c
  end.

End Engine.

Definition with_alpine_packages (base_container : Container)
    (packages_to_install : list string) : Container :=
  let package_install_command := ["apk"; "add"] in
  with_exec base_container (package_install_command ++ packages_to_install).

Definition with_debian_packages (base_container : Container)
    (packages_to_install : list string) : Container :=
  let update_packages_command := ["apt-get"; "update"] in
  let package_install_command := ["apt-get"; "install"; "-y"] in
  with_exec (with_exec base_container update_packages_command)
    (package_install_command ++ packages_to_install).

Definition with_pip_packages (base_container : Container)
    (packages_to_install : list string) : Container :=
  let package_install_command := ["pip"; "install"] in
  with_exec base_container (package_install_command ++ packages_to_install).

Definition with_dockerd_service (settings : GlobalSettings)
    (shared_volume : option (string * CacheVolume))
    (docker_service_name : option string) : Container :=
  let docker_lib_volume_name :=
    match shared_volume with
    | Some sv => fst sv +++ "-docker-lib"
    | None => "docker-lib"
    end in
  let docker_lib_volume_name :=
    match docker_service_name with
    | Some (String _ _ as name) =>
        docker_lib_volume_name +++ "-" +++ slugify name
    | _ => docker_lib_volume_name
    end in
  let dind :=
    with_mounted_cache (from_ new_container (DOCKER_DIND_IMAGE settings))
      "/var/lib/docker" (cache_volume docker_lib_volume_name) (Some SHARED) in
  let dind :=
    match shared_volume with
    | Some sv => with_mounted_cache dind (fst sv) (snd sv) None
    | None => dind
    end in
  with_exec_insecure (with_exposed_port dind 2375)
    ["dockerd"; "--log-level=error"; "--host=tcp://0.0.0.0:2375"; "--tls=false"].

Definition with_bound_docker_host (settings : GlobalSettings)
    (container : Container) (shared_volume : option (string * CacheVolume))
    (docker_service_name : option string) : Container :=
  let dockerd := with_dockerd_service settings shared_volume docker_service_name in
  let docker_lib_volume_name :=
    match shared_volume with
    | Some sv => fst sv +++ "-docker-lib"
    | None => "docker-lib"
    end in
  let docker_hostname := docker_lib_volume_name in
  let docker_hostname :=
    match docker_service_name with
    | Some (String _ _ as name) => docker_hostname +++ "-" +++ slugify name
    | _ => docker_hostname
    end in
  let bound :=
    with_service_binding
      (with_env_variable container "DOCKER_HOST"
         ("tcp://" +++ docker_hostname +++ ":2375"))
      docker_hostname dockerd in
  match shared_volume with
  | Some sv => with_mounted_cache bound (fst sv) (snd sv) None
  | None => bound
  end.

Definition with_docker_cli (settings : GlobalSettings)
    (shared_volume : option (string * CacheVolume))
    (docker_service_name : option string) : Container :=
  let docker_cli := from_ new_container (DOCKER_CLI_IMAGE settings) in
  with_bound_docker_host settings docker_cli shared_volume docker_service_name.

Definition gradle_include : list string :=
  [".root"; ".env"; "build.gradle"; "deps.toml"; "gradle.properties";
   "gradle"; "gradlew"; "LICENSE_SHORT"; "publish-repositories.gradle";
   "settings.gradle"; "build.gradle"; "tools/gradle";
   "spotbugs-exclude-filter-file.xml"; "buildSrc";
   "tools/bin/build_image.sh"; "tools/lib/lib.sh"].

Definition with_gradle (settings : GlobalSettings)
    (sources_to_include : option (list string)) (bind_to_docker_host : bool)
    (docker_service_name : option string) : Container :=
  let include :=
    match sources_to_include with
    | Some (s :: ss) => gradle_include ++ (s :: ss)
    | _ => gradle_include
    end in
  let gradle_dependency_cache := cache_volume "gradle-dependencies-caching" in
  let gradle_build_cache := cache_volume "gradle-build-cache" in
  let shared_tmp_volume := ("/tmp", cache_volume "share-tmp-gradle") in
  let c := from_ new_container "openjdk:17.0.1-jdk-slim" in
  let c := with_exec c ["apt-get"; "update"] in
  let c := with_exec c ["apt-get"; "install"; "-y"; "curl"; "jq"; "rsync"] in
  let c := with_env_variable c "VERSION" (DOCKER_VERSION settings) in
  let c := with_exec c ["sh"; "-c"; "curl -fsSL https://get.docker.com | sh"] in
  let c := with_env_variable c "GRADLE_HOME" "/root/.gradle" in
  let c := with_exec c ["mkdir"; "/airbyte"] in
  let c := with_workdir c "/airbyte" in
  let c :=
    with_mounted_directory c "/airbyte" (get_repo_dir "." (Some include) None) in
  let c :=
    with_exec c ["mkdir"; "-p"; GRADLE_READ_ONLY_DEPENDENCY_CACHE_PATH settings] in
  let c :=
    with_mounted_cache c (GRADLE_BUILD_CACHE_PATH settings) gradle_build_cache
      (Some LOCKED) in
  let c :=
    with_mounted_cache c (GRADLE_READ_ONLY_DEPENDENCY_CACHE_PATH settings)
      gradle_dependency_cache None in
  let openjdk_with_docker :=
    with_env_variable c "GRADLE_RO_DEP_CACHE"
      (GRADLE_READ_ONLY_DEPENDENCY_CACHE_PATH settings) in
  if bind_to_docker_host then
    with_bound_docker_host settings openjdk_with_docker (Some shared_tmp_volume)
      docker_service_name
  else openjdk_with_docker.

Definition with_poetry : result Container :=
  match with_python_base "python:3.9" with
  | Err e => Err e
  | Ok python_base_environment =>
      let python_with_git :=
        with_debian_packages python_base_environment ["git"] in
      let python_with_poetry := with_pip_packages python_with_git ["poetry"] in
      let poetry_cache := cache_volume "poetry_cache" in
      (* the container this call returns is dropped *)
      let _ :=
        with_mounted_cache python_with_poetry "/root/.cache/pypoetry"
          poetry_cache (Some SHARED) in
      Ok python_with_poetry
  end.

(* ================================================================= *)
(** ** Awaited calls

    What the caller can observe of an [async] function: the calls it
    awaited on the engine and the lines it logged, in order. *)

Inductive event : Type :=
| LogInfo (msg : string)
| AwaitExitCode (c : Container)
| AwaitStdout (c : Container).

Definition Async (A : Type) : Type := list event -> result A * list event.

Definition ret {A : Type} (a : A) : Async A := fun tr => (Ok a, tr).

Definition bind {A B : Type} (m : Async A) (k : A -> Async B) : Async B :=
  fun tr =>
    match m tr with
    | (Ok a, tr') => k a tr'
    | (Err e, tr') => (Err e, tr')
    end.

Notation "x <- m ;; k" := (bind m (fun x => k))
  (at level 61, m at next level, right associativity).
Notation "m ;;; k" := (bind m (fun _ => k))
  (at level 61, right associativity).

(** [context.logger.info(msg)]. *)
Definition logger_info (msg : string) : Async unit :=
  fun tr => (Ok tt, tr ++ [LogInfo msg]).

(** Runs an [async] function from an empty trace. *)
Definition run {A : Type} (m : Async A) : result A * list event := m [].

Section Exec.

(** What the engine answers when the last command of a container is
    run: its exit status and its standard output. *)
Variable exit_code_of : Container -> Z.
Variable stdout_of : Container -> string.

(** Modelled from the spec: [with_exit_code] of
    [aircmd/actions/pipelines.py] is not among the sources.  The spec
    (4.5 step 2) has the exit status of the command recorded, a failing
    command not failing the caller. *)
Definition with_exit_code (c : Container) : Async Z :=
  fun tr => (Ok (exit_code_of c), tr ++ [AwaitExitCode c]).

(** dagger's [Container.stdout()]: the output of the last command; a
    command that exits with a non-zero status raises. *)
Definition stdout (c : Container) : Async string :=
  fun tr =>
    (if (exit_code_of c =? 0)%Z then Ok (stdout_of c)
     else Err (ExecError (exit_code_of c)),
     tr ++ [AwaitStdout c]).

(** [uuid4] stands for [str(uuid.uuid4())], drawn by the caller. *)
Definition load_image_to_docker_host (settings : GlobalSettings)
    (tar_file : File) (image_tag : string)
    (docker_service_name : option string) (uuid4 : string) : Async unit :=
  let tar_name := uuid4 +++ ".tar" in
  let docker_cli :=
    with_mounted_file (with_docker_cli settings None docker_service_name)
      tar_name tar_file in
  docker_image_rm_exit_code <-
    with_exit_code
      (with_exec (with_env_variable docker_cli "CACHEBUSTER" tar_name)
         ["docker"; "image"; "rm"; image_tag]) ;;
  (if (docker_image_rm_exit_code =? 0)%Z
   then logger_info ("Removed an existing image tagged " +++ image_tag)
   else ret tt) ;;;
  image_load_output <-
    stdout (with_exec docker_cli ["docker"; "load"; "--input"; tar_name]) ;;
  logger_info image_load_output ;;;
  if Py.contains "sha256:" image_load_output then
    let image_id :=
      Py.replace "Loaded image ID: sha256:" ""
        (Py.replace Py.newline "" image_load_output) in
    docker_tag_output <-
      stdout (with_exec docker_cli ["docker"; "tag"; image_id; image_tag]) ;;
    logger_info docker_tag_output
  else ret tt.

End Exec.

(** The containers [load_image_to_docker_host] awaits, named: the docker
    CLI with the archive mounted, and on it the removal, the load and the
    tag commands. *)
Definition loader_cli (settings : GlobalSettings) (tar_file : File)
    (docker_service_name : option string) (uuid4 : string) : Container :=
  with_mounted_file (with_docker_cli settings None docker_service_name)
    (uuid4 +++ ".tar") tar_file.

Definition removal_of (docker_cli : Container) (image_tag uuid4 : string)
    : Container :=
  with_exec (with_env_variable docker_cli "CACHEBUSTER" (uuid4 +++ ".tar"))
    ["docker"; "image"; "rm"; image_tag].

Definition load_of (docker_cli : Container) (uuid4 : string) : Container :=
  with_exec docker_cli ["docker"; "load"; "--input"; uuid4 +++ ".tar"].

Definition tag_of (docker_cli : Container) (image_id image_tag : string)
    : Container :=
  with_exec docker_cli ["docker"; "tag"; image_id; image_tag].

(* ================================================================= *)
(** ** Reading a container back *)

(** The value of an environment variable: the last one set wins. *)
Definition env_variable (name : string) (c : Container) : option string :=
  fold_left
    (fun acc s =>
       match s with
       | WithEnvVariable n v => if String.eqb n name then Some v else acc
       | _ => acc
       end)
    c None.

(** The service bindings of a container, alias and service, in order. *)
Fixpoint service_bindings (c : Container) : list (string * Container) :=
  match c with
  | [] => []
  | WithServiceBinding a d :: t => (a, d) :: service_bindings t
  | _ :: t => service_bindings t
  end.

(** The cache mounts of a container, in order. *)
Fixpoint cache_mounts (c : Container)
    : list (string * CacheVolume * option CacheSharingMode) :=
  match c with
  | [] => []
  | WithMountedCache p v m :: t => (p, v, m) :: cache_mounts t
  | _ :: t => cache_mounts t
  end.

(** The cache volumes mounted at a path, in order. *)
Definition caches_at (path : string) (c : Container) : list CacheVolume :=
  map (fun m => snd (fst m))
    (filter (fun m => String.eqb (fst (fst m)) path) (cache_mounts c)).

(** The sharing modes under which the cache volume [key] is mounted. *)
Definition cache_sharing (key : string) (c : Container)
    : list (option CacheSharingMode) :=
  map snd
    (filter (fun m => String.eqb (cache_key (snd (fst m))) key)
       (cache_mounts c)).

(** The storage volume of a daemon: the first cache it mounts at
    [/var/lib/docker]. *)
Definition daemon_storage (dockerd : Container) : option string :=
  option_map cache_key (hd_error (caches_at "/var/lib/docker" dockerd)).

(** The directory mounts of a container, in order. *)
Fixpoint directory_mounts (c : Container) : list (string * Directory) :=
  match c with
  | [] => []
  | WithMountedDirectory p d :: t => (p, d) :: directory_mounts t
  | _ :: t => directory_mounts t
  end.

(** The commands of a container, in order. *)
Fixpoint commands (c : Container) : list (list string) :=
  match c with
  | [] => []
  | WithExec args _ :: t => args :: commands t
  | _ :: t => commands t
  end.

(** The command a container ends with, the one an awaited call runs. *)
Definition last_exec (c : Container) : option (list string) :=
  match rev c with
  | WithExec args _ :: _ => Some args
  | _ => None
  end.

(** The commands a trace awaited, in order. *)
Fixpoint awaited (tr : list event) : list (list string) :=
  match tr with
  | [] => []
  | LogInfo _ :: t => awaited t
  | AwaitExitCode c :: t | AwaitStdout c :: t =>
      match last_exec c with
      | Some args => args :: awaited t
      | None => awaited t
      end
  end.

(** The [docker tag] commands among the awaited commands. *)
Definition is_docker_tag (args : list string) : bool :=
  match args with
  | "docker" :: "tag" :: _ => true
  | _ => false
  end.

Definition tag_commands (tr : list event) : list (list string) :=
  filter is_docker_tag (awaited tr).

(** The lines a trace logged, in order. *)
Fixpoint logged (tr : list event) : list string :=
  match tr with
  | [] => []
  | LogInfo msg :: t => msg :: logged t
  | _ :: t => logged t
  end.

Definition count_command (cmd : list string) (cmds : list (list string)) : nat :=
  count_occ (list_eq_dec string_dec) cmds cmd.

(** Settings used where a statement is evaluated. *)
Definition sample_settings : GlobalSettings := {|
  DEFAULT_PYTHON_EXCLUDE := [".venv"; "__pycache__"];
  DOCKER_DIND_IMAGE := "docker:dind";
  DOCKER_CLI_IMAGE := "docker:cli";
  DOCKER_VERSION := "24.0.2";
  GRADLE_BUILD_CACHE_PATH := "/root/gradle-cache";
  GRADLE_READ_ONLY_DEPENDENCY_CACHE_PATH := "/root/gradle_dependency_cache"
|}.

(** Engines used where a statement is evaluated: a package with no
    requirements.txt, one with an empty requirements.txt, and one whose
    requirements.txt names two editable local packages. *)
Definition no_manifest : Container -> string -> option string :=
  fun _ _ => None.

Definition empty_manifest : Container -> string -> option string :=
  fun _ path => if String.eqb path "requirements.txt" then Some "" else None.

Definition sibling_manifest : Container -> string -> option string :=
  fun _ path =>
    if String.eqb path "requirements.txt"
    then Some ("requests==2.31" +++ Py.newline
               +++ "-e ./sibling" +++ Py.newline
               +++ "pytest" +++ Py.newline
               +++ "-e ../shared" +++ Py.newline)
    else None.

(** Outputs of [docker load]: of an image without a tag, of an image
    with its tag, and one with neither report. *)
Definition untagged_output : string :=
  "Loaded image ID: sha256:abc123" +++ Py.newline.

Definition tagged_output : string :=
  "Loaded image: myimg:latest" +++ Py.newline.

Definition unrecognised_output : string :=
  "Loading layer 5f70bf18a086" +++ Py.newline.

(** Engines used where a statement is evaluated: every command succeeds;
    only the removal fails; only the load fails; and [docker load] prints
    a given output. *)
Definition all_succeed : Container -> Z := fun _ => 0%Z.

Definition removal_fails : Container -> Z :=
  fun c =>
    match last_exec c with
    | Some ("docker" :: "image" :: "rm" :: _) => 1%Z
    | _ => 0%Z
    end.

Definition load_fails : Container -> Z :=
  fun c =>
    match last_exec c with
    | Some ("docker" :: "load" :: _) => 1%Z
    | _ => 0%Z
    end.

Definition load_prints (output : string) : Container -> string :=
  fun c =>
    match last_exec c with
    | Some ("docker" :: "load" :: _) => output
    | _ => ""
    end.

Definition sample_tar : File := file_handle "connector-image".

(* ================================================================= *)
(** ** The poetry module and crane *)

(** [uuid4] stands for [str(uuid.uuid4())], drawn by the caller. *)
Definition with_poetry_module (parent_dir : Directory) (module_path : string)
    (uuid4 : string) : result Container :=
  let poetry_install_dependencies_cmd := ["poetry"; "install"] in
  match with_poetry with
  | Err e => Err e
  | Ok python_with_poetry =>
      Ok (with_env_variable
            (with_exec
               (with_workdir
                  (with_mounted_directory python_with_poetry "/src" parent_dir)
                  ("/src/" +++ module_path))
               poetry_install_dependencies_cmd)
            "CACHEBUSTER" uuid4)
  end.

(** [dagger_client.set_secret(name, plaintext)]: a handle on a secret. *)
Record Secret : Type := set_secret {
  secret_name : string;
  secret_plaintext : string
}.

(** The steps of the crane container: those of [step], and the two that
    only [with_crane] uses, a variable bound to a secret and a command run
    with [skip_entrypoint=True]. *)
Inductive crane_step : Type :=
| Plain (s : step)
| WithSecretVariable (name : string) (secret : Secret)
| WithExecSkipEntrypoint (args : list string).

Definition crane_login_cmd : list string :=
  ["sh"; "-c";
   "crane auth login index.docker.io -u $DOCKER_HUB_USERNAME -p $DOCKER_HUB_PASSWORD"].

(** The two arguments stand for [settings.SECRET_DOCKER_HUB_USERNAME] and
    [settings.SECRET_DOCKER_HUB_PASSWORD], the fields of the settings that
    [with_crane] reads. *)
Definition with_crane
    (SECRET_DOCKER_HUB_USERNAME SECRET_DOCKER_HUB_PASSWORD : option string)
    : list crane_step :=
  let base_container :=
    map Plain
      (from_ new_container "gcr.io/go-containerregistry/crane/debug:v0.15.1") in
  match SECRET_DOCKER_HUB_USERNAME, SECRET_DOCKER_HUB_PASSWORD with
  | Some (String _ _ as username), Some (String _ _ as password) =>
      let dockerhub_user := set_secret "docker_hub_username" username in
      let dockerhub_password := set_secret "docker_hub_password" password in
      base_container
      ++ [WithSecretVariable "DOCKER_HUB_USERNAME" dockerhub_user;
          WithSecretVariable "DOCKER_HUB_PASSWORD" dockerhub_password;
          WithExecSkipEntrypoint crane_login_cmd]
  | _, _ => base_container
  end.

(** The commands of a crane container and the secrets it binds. *)
Fixpoint crane_commands (c : list crane_step) : list (list string) :=
  match c with
  | [] => []
  | Plain (WithExec args _) :: t => args :: crane_commands t
  | WithExecSkipEntrypoint args :: t => args :: crane_commands t
  | _ :: t => crane_commands t
  end.

Fixpoint crane_secrets (c : list crane_step) : list (string * Secret) :=
  match c with
  | [] => []
  | WithSecretVariable name secret :: t => (name, secret) :: crane_secrets t
  | _ :: t => crane_secrets t
  end.

(** The plain environment variables of a crane container. *)
Fixpoint crane_plain_env (c : list crane_step) : list (string * string) :=
  match c with
  | [] => []
  | Plain (WithEnvVariable name value) :: t => (name, value) :: crane_plain_env t
  | _ :: t => crane_plain_env t
  end.

(* ================================================================= *)
(** ** More readings of a container *)

(** The file mounts of a container, in order. *)
Fixpoint file_mounts (c : Container) : list (string * File) :=
  match c with
  | [] => []
  | WithMountedFile p f :: t => (p, f) :: file_mounts t
  | _ :: t => file_mounts t
  end.

(** The ports a container exposes, in order. *)
Fixpoint exposed_ports (c : Container) : list Z :=
  match c with
  | [] => []
  | WithExposedPort p :: t => p :: exposed_ports t
  | _ :: t => exposed_ports t
  end.

(** The working directory of a container: the last one set wins. *)
Definition workdir (c : Container) : option string :=
  fold_left
    (fun acc s => match s with WithWorkdir p => Some p | _ => acc end)
    c None.

(** The environment variables of a container, name and value, in order. *)
Fixpoint env_steps (c : Container) : list (string * string) :=
  match c with
  | [] => []
  | WithEnvVariable n v :: t => (n, v) :: env_steps t
  | _ :: t => env_steps t
  end.

(** A step that only runs a command. *)
Definition exec_step (args : list string) : step := WithExec args false.

(** Strings whose characters all pass a test. *)
Fixpoint all_chars (p : ascii -> bool) (s : string) : bool :=
  match s with
  | EmptyString => true
  | String c t => p c && all_chars p t
  end.

Definition is_hex_digit (c : ascii) : bool :=
  let n := nat_of_ascii c in
  ((48 <=? n)%nat && (n <=? 57)%nat) || ((97 <=? n)%nat && (n <=? 102)%nat).

Definition no_line_feed (s : string) : bool :=
  all_chars (fun c => negb (Ascii.eqb c Py.LF)) s.

(** The lines of a manifest as [with_installed_python_package] reads
    them: none when the file is not read or is empty. *)
Definition manifest_lines (requirements_txt : option string) : list string :=
  match requirements_txt with
  | Some (String _ _ as txt) => Py.split Py.LF txt
  | _ => []
  end.

(** The name that lines 188-190 give the daemon's storage volume and
    lines 226-229 give the host, as a function of the two arguments it is
    computed from. *)
Definition docker_lib_volume_name
    (shared_volume : option (string * CacheVolume))
    (docker_service_name : option string) : string :=
  let base :=
    match shared_volume with
    | Some sv => fst sv +++ "-docker-lib"
    | None => "docker-lib"
    end in
  match docker_service_name with
  | Some (String _ _ as name) => base +++ "-" +++ slugify name
  | _ => base
  end.

(** The mount of the shared volume, when there is one. *)
Definition shared_mount (shared_volume : option (string * CacheVolume))
    : list (string * CacheVolume * option CacheSharingMode) :=
  match shared_volume with
  | Some sv => [(fst sv, snd sv, None)]
  | None => []
  end.

(** The mode under which the engine mounts a cache: the one the
    [sharing] keyword gives, and the engine's default when the keyword is
    left out. *)
Definition effective_sharing (default : CacheSharingMode)
    (sharing : option CacheSharingMode) : CacheSharingMode :=
  match sharing with
  | Some mode => mode
  | None => default
  end.

(** dagger's [with_mounted_cache] mounts a cache whose [sharing] keyword
    is left out as a shared cache. *)
Definition dagger_default_sharing : CacheSharingMode := SHARED.

(** The modes under which the cache volume [key] is mounted in a
    container, as the engine applies them. *)
Definition mounted_sharing (key : string) (c : Container)
    : list CacheSharingMode :=
  map (effective_sharing dagger_default_sharing) (cache_sharing key c).

(* ================================================================= *)
(** ** Lemmas on strings *)

Lemma append_cancel_l (a b c : string) : a +++ b = a +++ c -> b = c.
Proof.
  induction a as [|x a IH]; simpl; intros H.
  - exact H.
  - injection H as H. auto.
Qed.

Lemma length_append (a b : string) :
  String.length (a +++ b) = String.length a + String.length b.
Proof.
  induction a as [|x a IH]; simpl; [reflexivity | now rewrite IH].
Qed.

Lemma append_cancel_r (a b s : string) : a +++ s = b +++ s -> a = b.
Proof.
  revert b. induction a as [|x a IH]; intros [|y b] H; simpl in H.
  - reflexivity.
  - apply (f_equal String.length) in H. simpl in H.
    rewrite length_append in H. lia.
  - apply (f_equal String.length) in H. simpl in H.
    rewrite length_append in H. lia.
  - injection H as Hx H. subst y. f_equal. now apply IH.
Qed.

Lemma append_grows (a b : string) : b <> EmptyString -> a +++ b <> a.
Proof.
  intros Hb H. apply (f_equal String.length) in H.
  rewrite length_append in H. destruct b; [congruence | simpl in H; lia].
Qed.

(* ================================================================= *)
(** ** Lemmas on containers *)

Lemma env_variable_set (c : Container) (name value : string) :
  env_variable name (with_env_variable c name value) = Some value.
Proof.
  unfold env_variable, with_env_variable.
  rewrite fold_left_app. simpl. now rewrite String.eqb_refl.
Qed.

Lemma env_variable_app_keep (name : string) (c d : Container) :
  (forall n v, In (WithEnvVariable n v) d -> n <> name) ->
  env_variable name (c ++ d) = env_variable name c.
Proof.
  unfold env_variable. rewrite fold_left_app.
  generalize (fold_left
    (fun acc s =>
       match s with
       | WithEnvVariable n v => if String.eqb n name then Some v else acc
       | _ => acc
       end) c None) as acc.
  induction d as [|s d IH]; intros acc H; simpl; [reflexivity|].
  rewrite IH by (intros n v Hin; apply (H n v); now right).
  destruct s; try reflexivity.
  destruct (String.eqb_spec name0 name) as [->|]; [|reflexivity].
  exfalso. apply (H name value); [now left | reflexivity].
Qed.

Lemma service_bindings_app (c d : Container) :
  service_bindings (c ++ d) = service_bindings c ++ service_bindings d.
Proof.
  induction c as [|s c IH]; simpl; [reflexivity|].
  destruct s; simpl; now rewrite ?IH.
Qed.

Lemma cache_mounts_app (c d : Container) :
  cache_mounts (c ++ d) = cache_mounts c ++ cache_mounts d.
Proof.
  induction c as [|s c IH]; simpl; [reflexivity|].
  destruct s; simpl; now rewrite ?IH.
Qed.

Lemma directory_mounts_app (c d : Container) :
  directory_mounts (c ++ d) = directory_mounts c ++ directory_mounts d.
Proof.
  induction c as [|s c IH]; simpl; [reflexivity|].
  destruct s; simpl; now rewrite ?IH.
Qed.

Lemma commands_app (c d : Container) :
  commands (c ++ d) = commands c ++ commands d.
Proof.
  induction c as [|s c IH]; simpl; [reflexivity|].
  destruct s; simpl; now rewrite ?IH.
Qed.

Lemma cache_sharing_app (key : string) (c d : Container) :
  cache_sharing key (c ++ d) = cache_sharing key c ++ cache_sharing key d.
Proof.
  unfold cache_sharing.
  now rewrite cache_mounts_app, filter_app, map_app.
Qed.

(* ================================================================= *)
(** ** The docker host binding *)

Ltac no_env_step :=
  let n := fresh "n" in
  let v := fresh "v" in
  let H := fresh "H" in
  intros n v H; simpl in H;
  repeat (destruct H as [H|H]; [discriminate H|]); contradiction.

(** The three readings C1 compares, for one call. *)
Lemma bound_docker_host_readings (settings : GlobalSettings)
    (container : Container) (shared_volume : option (string * CacheVolume))
    (docker_service_name : option string) :
  let base :=
    match shared_volume with
    | Some sv => fst sv +++ "-docker-lib"
    | None => "docker-lib"
    end in
  let hostname :=
    match docker_service_name with
    | Some (String _ _ as name) => base +++ "-" +++ slugify name
    | _ => base
    end in
  let dockerd :=
    with_dockerd_service settings shared_volume docker_service_name in
  let bound :=
    with_bound_docker_host settings container shared_volume
      docker_service_name in
  env_variable "DOCKER_HOST" bound = Some ("tcp://" +++ hostname +++ ":2375")
  /\ service_bindings bound = service_bindings container ++ [(hostname, dockerd)]
  /\ daemon_storage dockerd = Some hostname.
Proof.
  intros base hostname dockerd bound. repeat split.
  - subst bound. unfold with_bound_docker_host.
    fold base. fold hostname. fold dockerd.
    destruct shared_volume as [sv|];
      unfold with_mounted_cache, with_service_binding;
      rewrite ?env_variable_app_keep by no_env_step;
      apply env_variable_set.
  - subst bound. unfold with_bound_docker_host.
    fold base. fold hostname. fold dockerd.
    destruct shared_volume as [sv|];
      unfold with_mounted_cache, with_service_binding, with_env_variable;
      rewrite !service_bindings_app; simpl; now rewrite ?app_nil_r.
  - subst dockerd. unfold with_dockerd_service.
    fold base. fold hostname.
    destruct shared_volume as [sv|]; reflexivity.
Qed.

(** C1.  The hostname that [with_bound_docker_host] puts in the client's
    [DOCKER_HOST] variable is the alias under which it binds the daemon,
    and it is, as a string, the name of the cache volume that
    [with_dockerd_service] mounts at [/var/lib/docker] for that daemon.
    Two calls with the same shared-volume path and the same service name,
    whatever the settings, the client container and the shared cache
    volume, compute the same [DOCKER_HOST] value and the same
    storage-volume name. *)
Theorem docker_hostname_is_storage_volume_name :
  forall (settings : GlobalSettings) (container : Container)
         (shared_volume : option (string * CacheVolume))
         (docker_service_name : option string),
    (exists hostname : string,
        env_variable "DOCKER_HOST"
          (with_bound_docker_host settings container shared_volume
             docker_service_name)
        = Some ("tcp://" +++ hostname +++ ":2375")
        /\ service_bindings
             (with_bound_docker_host settings container shared_volume
                docker_service_name)
           = service_bindings container
             ++ [(hostname,
                  with_dockerd_service settings shared_volume
                    docker_service_name)]
        /\ daemon_storage
             (with_dockerd_service settings shared_volume docker_service_name)
           = Some hostname)
    /\ (forall (settings' : GlobalSettings) (container' : Container)
               (volume' : CacheVolume),
          let shared_volume' :=
            option_map (fun sv => (fst sv, volume')) shared_volume in
          env_variable "DOCKER_HOST"
            (with_bound_docker_host settings' container' shared_volume'
               docker_service_name)
          = env_variable "DOCKER_HOST"
              (with_bound_docker_host settings container shared_volume
                 docker_service_name)
          /\ daemon_storage
               (with_dockerd_service settings' shared_volume'
                  docker_service_name)
             = daemon_storage
                 (with_dockerd_service settings shared_volume
                    docker_service_name)).
Proof.
  intros settings container shared_volume docker_service_name.
  destruct (bound_docker_host_readings settings container shared_volume
              docker_service_name) as (Henv & Hbind & Hstore).
  split.
  - eexists. repeat split; eassumption.
  - intros settings' container' volume' shared_volume'.
    destruct (bound_docker_host_readings settings' container' shared_volume'
                docker_service_name) as (Henv' & _ & Hstore').
    rewrite Henv, Henv', Hstore, Hstore'.
    subst shared_volume'. destruct shared_volume as [[p v]|]; split; reflexivity.
Qed.

(** C3, as stated, fails: the service names ["Gradle"] and ["gradle"]
    differ, and their slugs do not, so the two calls compute the same
    [DOCKER_HOST] value and the same daemon storage-volume name. *)
Lemma service_names_with_one_slug_collide :
  "Gradle" <> "gradle"
  /\ env_variable "DOCKER_HOST"
       (with_bound_docker_host sample_settings new_container None
          (Some "Gradle"))
     = env_variable "DOCKER_HOST"
         (with_bound_docker_host sample_settings new_container None
            (Some "gradle"))
  /\ daemon_storage (with_dockerd_service sample_settings None (Some "Gradle"))
     = daemon_storage (with_dockerd_service sample_settings None (Some "gradle")).
Proof.
  split; [discriminate|]. split; vm_compute; reflexivity.
Qed.

(** C3, amended.  With the same shared volume, two service names whose
    slugs differ give two different [DOCKER_HOST] values, two different
    binding aliases and two different daemon storage-volume names. *)
Theorem distinct_slugs_isolate_docker_hosts :
  forall (settings settings' : GlobalSettings) (container container' : Container)
         (shared_volume : option (string * CacheVolume))
         (name name' : string),
    slugify name <> slugify name' ->
    env_variable "DOCKER_HOST"
      (with_bound_docker_host settings container shared_volume (Some name))
    <> env_variable "DOCKER_HOST"
         (with_bound_docker_host settings' container' shared_volume (Some name'))
    /\ map fst
         (service_bindings
            (with_bound_docker_host settings container shared_volume
               (Some name)))
       <> map fst
            (service_bindings
               (with_bound_docker_host settings' container' shared_volume
                  (Some name')))
    /\ daemon_storage
         (with_dockerd_service settings shared_volume (Some name))
       <> daemon_storage
            (with_dockerd_service settings' shared_volume (Some name')).
Proof.
  intros settings settings' container container' shared_volume name name' Hslug.
  destruct (bound_docker_host_readings settings container shared_volume
              (Some name)) as (Henv & Hbind & Hstore).
  destruct (bound_docker_host_readings settings' container' shared_volume
              (Some name')) as (Henv' & Hbind' & Hstore').
  rewrite Henv, Henv', Hstore, Hstore', Hbind, Hbind'.
  set (base := match shared_volume with
               | Some sv => fst sv +++ "-docker-lib"
               | None => "docker-lib"
               end).
  set (h := match name with
            | String _ _ => base +++ "-" +++ slugify name
            | EmptyString => base
            end).
  set (h' := match name' with
             | String _ _ => base +++ "-" +++ slugify name'
             | EmptyString => base
             end).
  assert (Hhost : h <> h').
  { subst h h'. intros E. destruct name as [|a n], name' as [|a' n'].
    - now apply Hslug.
    - symmetry in E. revert E. apply append_grows. discriminate.
    - revert E. apply append_grows. discriminate.
    - apply append_cancel_l in E. simpl in E. injection E as E.
      now apply Hslug. }
  repeat split.
  - intros E. injection E as E. apply append_cancel_r in E.
    now apply Hhost.
  - rewrite !map_app. simpl. intros E.
    apply app_inj_tail in E. now apply Hhost.
  - intros E. injection E as E. now apply Hhost.
Qed.

Lemma distinct_slugs_isolate_docker_hosts_witness :
  slugify "gradle" <> slugify "maven"
  /\ daemon_storage
       (with_dockerd_service sample_settings
          (Some ("/tmp", cache_volume "share-tmp-gradle")) (Some "gradle"))
     <> daemon_storage
          (with_dockerd_service sample_settings
             (Some ("/tmp", cache_volume "share-tmp-gradle")) (Some "maven")).
Proof.
  assert (H : slugify "gradle" <> slugify "maven") by (vm_compute; discriminate).
  split; [exact H|].
  exact (proj2 (proj2 (distinct_slugs_isolate_docker_hosts
                         sample_settings sample_settings
                         new_container new_container
                         (Some ("/tmp", cache_volume "share-tmp-gradle"))
                         "gradle" "maven" H))).
Defined.

(* ================================================================= *)
(** ** The python base and poetry *)

Lemma startswith_spec (s pre : string) :
  Py.startswith s pre = true <-> exists rest, s = pre +++ rest.
Proof.
  unfold Py.startswith. revert s.
  induction pre as [|c pre IH]; intros s.
  - split; [intros _; now exists s | intros _; now destruct s].
  - destruct s as [|d s]; simpl.
    + split; [discriminate | intros [rest H]; discriminate].
    + destruct (Ascii.ascii_dec c d) as [->|Hne].
      * rewrite IH. split; intros [rest H]; exists rest.
        -- now rewrite H.
        -- now injection H.
      * split; [discriminate | intros [rest H]; injection H; congruence].
Qed.

(** C9.  [with_python_base] raises a [ValueError] exactly when the image
    name does not start with ["python:3"], and then it leaves no step
    behind; for a name that starts with ["python:3"] it returns the
    container pulled from that image, with the [pip_cache] volume
    mounted at [/root/.cache/pip] and then pip upgraded. *)
Theorem with_python_base_validates_image_name :
  forall python_image_name : string,
    ((exists msg, with_python_base python_image_name = Err (ValueError msg))
     <-> ~ (exists rest, python_image_name = "python:3" +++ rest))
    /\ ((exists e, with_python_base python_image_name = Err e)
        <-> ~ (exists rest, python_image_name = "python:3" +++ rest))
    /\ (steps_issued (with_python_base python_image_name) = []
        <-> ~ (exists rest, python_image_name = "python:3" +++ rest))
    /\ ((exists rest, python_image_name = "python:3" +++ rest)
        <-> with_python_base python_image_name
            = Ok [From python_image_name;
                  WithMountedCache "/root/.cache/pip"
                    (cache_volume "pip_cache") None;
                  WithExec ["pip"; "install"; "--upgrade"; "pip"] false]).
Proof.
  intros name. rewrite <- startswith_spec.
  unfold with_python_base.
  destruct (Py.startswith name "python:3"); simpl.
  - repeat split; try discriminate; try tauto.
    + intros [msg H]. discriminate.
    + intros [e H]. discriminate.
  - repeat split; try discriminate; try tauto; eauto.
Qed.

(** C10.  [with_poetry] returns the python 3.9 base with git installed
    through apt-get and poetry through pip, and nothing more: the
    container with the [poetry_cache] volume mounted is built from it and
    dropped, so the returned container mounts no cache at
    [/root/.cache/pypoetry] and does not mount the [poetry_cache]
    volume. *)
Theorem with_poetry_drops_cache_mount :
  exists python_base_environment : Container,
    with_python_base "python:3.9" = Ok python_base_environment
    /\ with_poetry
       = Ok (with_pip_packages
               (with_debian_packages python_base_environment ["git"])
               ["poetry"])
    /\ with_poetry
       = Ok [From "python:3.9";
             WithMountedCache "/root/.cache/pip" (cache_volume "pip_cache") None;
             WithExec ["pip"; "install"; "--upgrade"; "pip"] false;
             WithExec ["apt-get"; "update"] false;
             WithExec ["apt-get"; "install"; "-y"; "git"] false;
             WithExec ["pip"; "install"; "poetry"] false]
    /\ caches_at "/root/.cache/pypoetry" (steps_issued with_poetry) = []
    /\ cache_sharing "poetry_cache" (steps_issued with_poetry) = []
    /\ with_poetry
       <> Ok (with_mounted_cache
                (with_pip_packages
                   (with_debian_packages python_base_environment ["git"])
                   ["poetry"])
                "/root/.cache/pypoetry" (cache_volume "poetry_cache")
                (Some SHARED)).
Proof.
  eexists. split; [reflexivity|].
  repeat split; try reflexivity.
  vm_compute. discriminate.
Qed.

(* ================================================================= *)
(** ** The gradle environment *)

(** The [sharing] keyword of the two gradle caches, as lines 311 and 312
    give it: [with_gradle] mounts the [gradle-build-cache] volume once, at
    the build-cache path, with [sharing=LOCKED], and the
    [gradle-dependencies-caching] volume once, at the read-only
    dependency-cache path, with the keyword left out. *)
Lemma with_gradle_cache_sharing :
  forall (settings : GlobalSettings) (sources_to_include : option (list string))
         (bind_to_docker_host : bool) (docker_service_name : option string),
    let gradle :=
      with_gradle settings sources_to_include bind_to_docker_host
        docker_service_name in
    cache_sharing "gradle-build-cache" gradle = [Some LOCKED]
    /\ cache_sharing "gradle-dependencies-caching" gradle = [None]
    /\ In (GRADLE_BUILD_CACHE_PATH settings,
           cache_volume "gradle-build-cache", Some LOCKED)
         (cache_mounts gradle)
    /\ In (GRADLE_READ_ONLY_DEPENDENCY_CACHE_PATH settings,
           cache_volume "gradle-dependencies-caching", None)
         (cache_mounts gradle).
Proof.
  intros settings sources bind name gradle. subst gradle.
  unfold with_gradle.
  destruct bind.
  - unfold with_bound_docker_host, with_mounted_cache, with_service_binding.
    rewrite !cache_sharing_app. unfold cache_sharing.
    rewrite !cache_mounts_app. simpl.
    repeat split; auto.
  - unfold cache_sharing. simpl. repeat split; auto.
Qed.

(** C4.  Whatever its arguments, [with_gradle] mounts the
    [gradle-build-cache] volume, at the build-cache path, with locked
    sharing, and the [gradle-dependencies-caching] volume, at the
    read-only dependency-cache path, with shared sharing: line 311 asks
    for [LOCKED]; line 312 leaves the mode out, and the engine mounts such
    a cache shared.  The build cache is locked whatever the engine's
    default, and the dependency cache takes the default. *)
Theorem with_gradle_locked_build_cache_shared_dependency_cache :
  forall (settings : GlobalSettings) (sources_to_include : option (list string))
         (bind_to_docker_host : bool) (docker_service_name : option string),
    let gradle :=
      with_gradle settings sources_to_include bind_to_docker_host
        docker_service_name in
    mounted_sharing "gradle-build-cache" gradle = [LOCKED]
    /\ mounted_sharing "gradle-dependencies-caching" gradle = [SHARED]
    /\ In (GRADLE_BUILD_CACHE_PATH settings,
           cache_volume "gradle-build-cache", Some LOCKED)
         (cache_mounts gradle)
    /\ In (GRADLE_READ_ONLY_DEPENDENCY_CACHE_PATH settings,
           cache_volume "gradle-dependencies-caching", None)
         (cache_mounts gradle)
    /\ (forall default : CacheSharingMode,
          map (effective_sharing default)
            (cache_sharing "gradle-build-cache" gradle) = [LOCKED]
          /\ map (effective_sharing default)
               (cache_sharing "gradle-dependencies-caching" gradle)
             = [default]).
Proof.
  intros settings sources bind name gradle.
  destruct (with_gradle_cache_sharing settings sources bind name)
    as (Hbuild & Hdependency & Hbuild_at & Hdependency_at).
  fold gradle in Hbuild, Hdependency, Hbuild_at, Hdependency_at.
  unfold mounted_sharing. rewrite Hbuild, Hdependency.
  repeat split; try assumption; reflexivity.
Qed.

(* ================================================================= *)
(** ** Installing a python package *)

Lemma fold_mount_local_dependency (settings : GlobalSettings) (pkg : string)
    (lines : list string) (c : Container) :
  fold_left (mount_local_dependency settings pkg) lines c
  = c ++ map (fun line =>
                WithMountedDirectory ("/" +++ pkg +++ "/" +++ Py.drop 3 line)
                  (get_repo_dir (pkg +++ "/" +++ Py.drop 3 line) None
                     (Some (DEFAULT_PYTHON_EXCLUDE settings))))
           (filter (fun line => Py.startswith line "-e .") lines).
Proof.
  revert c. induction lines as [|line lines IH]; intros c; simpl.
  - now rewrite app_nil_r.
  - rewrite IH. unfold mount_local_dependency.
    destruct (Py.startswith line "-e ."); [|reflexivity].
    unfold with_mounted_directory. now rewrite <- app_assoc.
Qed.

Lemma commands_of_mounts {A : Type} (path : A -> string) (dir : A -> Directory)
    (l : list A) :
  commands (map (fun x => WithMountedDirectory (path x) (dir x)) l) = [].
Proof. induction l; simpl; auto. Qed.

Lemma directory_mounts_of_mounts {A : Type} (path : A -> string)
    (dir : A -> Directory) (l : list A) :
  directory_mounts (map (fun x => WithMountedDirectory (path x) (dir x)) l)
  = map (fun x => (path x, dir x)) l.
Proof. induction l; simpl; [reflexivity | now f_equal]. Qed.

(** The command of the optional last step never is the install from the
    manifest. *)
Lemma count_local_requirements_in_tail (groups : option (list string)) :
  count_command install_local_requirements_cmd
    (commands
       (WithExec install_connector_package_cmd false
        :: match groups with
           | Some (g :: gs) =>
               [WithExec ["python"; "-m"; "pip"; "install";
                          ".[" +++ Py.join "," (g :: gs) +++ "]"] false]
           | _ => []
           end)) = 0.
Proof.
  unfold count_command.
  destruct groups as [[|g gs]|]; simpl;
    repeat match goal with
      | |- context [list_eq_dec string_dec ?a ?b] =>
          destruct (list_eq_dec string_dec a b); [discriminate|]
      end; reflexivity.
Qed.

(** C2, as stated, fails: an empty requirements.txt is read, it has no
    editable line, and the install from the manifest is not issued. *)
Lemma empty_requirements_skip_manifest_install :
  get_file_contents empty_manifest
    (with_python_package sample_settings new_container "connector" None)
    "requirements.txt" = Some ""
  /\ filter (fun line => Py.startswith line "-e .") (Py.split Py.LF "") = []
  /\ count_command install_local_requirements_cmd
       (commands
          (with_installed_python_package empty_manifest sample_settings
             new_container "connector" None None)) = 0.
Proof.
  repeat split; vm_compute; reflexivity.
Qed.

(** C2, amended.  When requirements.txt is read and is not the empty
    string, the steps [with_installed_python_package] adds after mounting
    the package are: one directory mount for each line that starts with
    ["-e ."], in the order of the lines, then the install from the
    manifest, then the install of the package and, with extras, its
    second install; the install from the manifest occurs once among
    them. *)
Theorem editable_requirements_mounted_in_order :
  forall (file_contents : Container -> string -> option string)
         (settings : GlobalSettings) (python_environment : Container)
         (package_source_code_path : string)
         (additional_dependency_groups exclude : option (list string))
         (requirements_txt : string),
    requirements_txt <> "" ->
    get_file_contents file_contents
      (with_python_package settings python_environment
         package_source_code_path exclude)
      "requirements.txt" = Some requirements_txt ->
    let editable :=
      filter (fun line => Py.startswith line "-e .")
        (Py.split Py.LF requirements_txt) in
    let local_path :=
      fun line => package_source_code_path +++ "/" +++ Py.drop 3 line in
    let local_dir :=
      fun line =>
        get_repo_dir (local_path line) None
          (Some (DEFAULT_PYTHON_EXCLUDE settings)) in
    exists added : list step,
      with_installed_python_package file_contents settings python_environment
        package_source_code_path additional_dependency_groups exclude
      = with_python_package settings python_environment
          package_source_code_path exclude ++ added
      /\ added
         = map (fun line =>
                  WithMountedDirectory ("/" +++ local_path line) (local_dir line))
             editable
           ++ WithExec install_local_requirements_cmd false
           :: WithExec install_connector_package_cmd false
           :: match additional_dependency_groups with
              | Some (g :: gs) =>
                  [WithExec ["python"; "-m"; "pip"; "install";
                             ".[" +++ Py.join "," (g :: gs) +++ "]"] false]
              | _ => []
              end
      /\ directory_mounts added
         = map (fun line => ("/" +++ local_path line, local_dir line)) editable
      /\ count_command install_local_requirements_cmd (commands added) = 1.
Proof.
  intros fc settings env pkg groups exclude txt Hne Hread editable
    local_path local_dir.
  eexists. split; [|split; [reflexivity|split]].
  - unfold with_installed_python_package. rewrite Hread.
    destruct txt as [|a txt]; [congruence|].
    rewrite fold_mount_local_dependency.
    fold editable. unfold with_exec.
    destruct groups as [[|g gs]|]; simpl; rewrite <- ?app_assoc; reflexivity.
  - rewrite directory_mounts_app.
    rewrite (directory_mounts_of_mounts (fun line => "/" +++ local_path line)
               local_dir).
    destruct groups as [[|g gs]|]; simpl; now rewrite app_nil_r.
  - rewrite commands_app.
    rewrite (commands_of_mounts (fun line => "/" +++ local_path line) local_dir).
    cbn [app commands].
    unfold count_command. rewrite count_occ_cons_eq by reflexivity.
    f_equal. apply count_local_requirements_in_tail.
Qed.

Lemma editable_requirements_mounted_in_order_witness :
  directory_mounts
    (with_installed_python_package sibling_manifest sample_settings
       new_container "connector" None None)
  = [("/connector",
      get_repo_dir "connector" None (Some [".venv"; "__pycache__"]));
     ("/connector/./sibling",
      get_repo_dir "connector/./sibling" None (Some [".venv"; "__pycache__"]));
     ("/connector/../shared",
      get_repo_dir "connector/../shared" None (Some [".venv"; "__pycache__"]))]
  /\ commands
       (with_installed_python_package sibling_manifest sample_settings
          new_container "connector" None None)
     = [install_local_requirements_cmd; install_connector_package_cmd].
Proof.
  destruct (editable_requirements_mounted_in_order sibling_manifest
              sample_settings new_container "connector" None None
              ("requests==2.31" +++ Py.newline
               +++ "-e ./sibling" +++ Py.newline
               +++ "pytest" +++ Py.newline
               +++ "-e ../shared" +++ Py.newline)
              ltac:(discriminate) eq_refl)
    as (added & Hres & Hadded & _ & _).
  rewrite Hres, Hadded. split; reflexivity.
Defined.

(** C8.  When requirements.txt cannot be read,
    [with_installed_python_package] returns a container: the package
    container with the install of the package added, followed with extras
    by its second install; it adds no directory mount and does not issue
    the install from the manifest. *)
Theorem unread_requirements_install_package_only :
  forall (file_contents : Container -> string -> option string)
         (settings : GlobalSettings) (python_environment : Container)
         (package_source_code_path : string)
         (additional_dependency_groups exclude : option (list string)),
    get_file_contents file_contents
      (with_python_package settings python_environment
         package_source_code_path exclude)
      "requirements.txt" = None ->
    exists added : list step,
      with_installed_python_package file_contents settings python_environment
        package_source_code_path additional_dependency_groups exclude
      = with_python_package settings python_environment
          package_source_code_path exclude ++ added
      /\ added
         = WithExec install_connector_package_cmd false
           :: match additional_dependency_groups with
              | Some (g :: gs) =>
                  [WithExec ["python"; "-m"; "pip"; "install";
                             ".[" +++ Py.join "," (g :: gs) +++ "]"] false]
              | _ => []
              end
      /\ directory_mounts added = []
      /\ count_command install_local_requirements_cmd (commands added) = 0
      /\ hd_error (commands added) = Some install_connector_package_cmd.
Proof.
  intros fc settings env pkg groups exclude Hread.
  eexists. split; [|split; [reflexivity|repeat split]].
  - unfold with_installed_python_package. rewrite Hread. unfold with_exec.
    destruct groups as [[|g gs]|]; simpl; rewrite <- ?app_assoc; reflexivity.
  - destruct groups as [[|g gs]|]; reflexivity.
  - apply count_local_requirements_in_tail.
Qed.

Lemma unread_requirements_install_package_only_witness :
  commands
    (with_installed_python_package no_manifest sample_settings new_container
       "connector" (Some ["dev"; "tests"]) None)
  = [install_connector_package_cmd;
     ["python"; "-m"; "pip"; "install"; ".[dev,tests]"]].
Proof.
  destruct (unread_requirements_install_package_only no_manifest
              sample_settings new_container "connector"
              (Some ["dev"; "tests"]) None eq_refl)
    as (added & Hres & Hadded & _).
  rewrite Hres, Hadded. reflexivity.
Defined.

(* ================================================================= *)
(** ** Loading an image to the docker host *)

Lemma last_exec_with_exec (c : Container) (args : list string) :
  last_exec (with_exec c args) = Some args.
Proof.
  unfold last_exec, with_exec. now rewrite rev_app_distr.
Qed.

(** What one run of [load_image_to_docker_host] returns and leaves in the
    trace, by the outcomes of its awaited commands. *)
Lemma load_image_to_docker_host_run (exit_code_of : Container -> Z)
    (stdout_of : Container -> string) (settings : GlobalSettings)
    (tar_file : File) (image_tag : string)
    (docker_service_name : option string) (uuid4 : string) :
  let docker_cli := loader_cli settings tar_file docker_service_name uuid4 in
  let removal := removal_of docker_cli image_tag uuid4 in
  let load := load_of docker_cli uuid4 in
  let output := stdout_of load in
  let tag :=
    tag_of docker_cli
      (Py.replace "Loaded image ID: sha256:" ""
         (Py.replace Py.newline "" output))
      image_tag in
  let removed :=
    if (exit_code_of removal =? 0)%Z
    then [LogInfo ("Removed an existing image tagged " +++ image_tag)]
    else [] in
  run (load_image_to_docker_host exit_code_of stdout_of settings tar_file
         image_tag docker_service_name uuid4)
  = if (exit_code_of load =? 0)%Z then
      if Py.contains "sha256:" output then
        if (exit_code_of tag =? 0)%Z then
          (Ok tt,
           AwaitExitCode removal :: removed
           ++ [AwaitStdout load; LogInfo output;
               AwaitStdout tag; LogInfo (stdout_of tag)])
        else
          (Err (ExecError (exit_code_of tag)),
           AwaitExitCode removal :: removed
           ++ [AwaitStdout load; LogInfo output; AwaitStdout tag])
      else
        (Ok tt,
         AwaitExitCode removal :: removed ++ [AwaitStdout load; LogInfo output])
    else
      (Err (ExecError (exit_code_of load)),
       AwaitExitCode removal :: removed ++ [AwaitStdout load]).
Proof.
  intros docker_cli removal load output tag removed.
  unfold load_image_to_docker_host, run, bind, with_exit_code, stdout,
    logger_info, ret.
  fold (loader_cli settings tar_file docker_service_name uuid4).
  fold docker_cli.
  fold (removal_of docker_cli image_tag uuid4). fold removal.
  fold (load_of docker_cli uuid4). fold load. fold output.
  subst removed.
  destruct (exit_code_of removal =? 0)%Z;
    destruct (exit_code_of load =? 0)%Z; try reflexivity;
    destruct (Py.contains "sha256:" output); try reflexivity;
    fold (tag_of docker_cli
            (Py.replace "Loaded image ID: sha256:" ""
               (Py.replace Py.newline "" output)) image_tag);
    fold tag;
    destruct (exit_code_of tag =? 0)%Z; reflexivity.
Qed.

Lemma awaited_exit_code (c : Container) (args : list string) (t : list event) :
  awaited (AwaitExitCode (with_exec c args) :: t) = args :: awaited t.
Proof. simpl. now rewrite last_exec_with_exec. Qed.

Lemma awaited_stdout (c : Container) (args : list string) (t : list event) :
  awaited (AwaitStdout (with_exec c args) :: t) = args :: awaited t.
Proof. simpl. now rewrite last_exec_with_exec. Qed.

Lemma awaited_log (msg : string) (t : list event) :
  awaited (LogInfo msg :: t) = awaited t.
Proof. reflexivity. Qed.

Ltac read_trace :=
  unfold tag_commands, removal_of, load_of, tag_of;
  cbn [snd fst app];
  rewrite ?awaited_exit_code, ?awaited_stdout, ?awaited_log;
  cbn [awaited filter is_docker_tag].

(** C6.  With the target tag [myimg:latest] and a load command that
    succeeds: when its output is ["Loaded image ID: sha256:abc123\n"], one
    tag command is awaited, [docker tag abc123 myimg:latest]; when its
    output is ["Loaded image: myimg:latest\n"], no tag command is
    awaited. *)
Theorem load_tags_untagged_image_only :
  forall (exit_code_of : Container -> Z) (stdout_of : Container -> string)
         (settings : GlobalSettings) (tar_file : File)
         (docker_service_name : option string) (uuid4 : string),
    let docker_cli := loader_cli settings tar_file docker_service_name uuid4 in
    exit_code_of (load_of docker_cli uuid4) = 0%Z ->
    let trace :=
      snd (run (load_image_to_docker_host exit_code_of stdout_of settings
                  tar_file "myimg:latest" docker_service_name uuid4)) in
    (stdout_of (load_of docker_cli uuid4)
     = "Loaded image ID: sha256:abc123" +++ Py.newline ->
     tag_commands trace = [["docker"; "tag"; "abc123"; "myimg:latest"]]
     /\ In (AwaitStdout (tag_of docker_cli "abc123" "myimg:latest")) trace)
    /\ (stdout_of (load_of docker_cli uuid4)
        = "Loaded image: myimg:latest" +++ Py.newline ->
        tag_commands trace = []).
Proof.
  intros exit_code_of stdout_of settings tar_file name uuid4 docker_cli Hload
    trace.
  subst trace.
  rewrite load_image_to_docker_host_run. fold docker_cli. rewrite Hload.
  cbn [Z.eqb].
  split; intros Hout; rewrite Hout.
  - change (Py.contains "sha256:"
              ("Loaded image ID: sha256:abc123" +++ Py.newline)) with true.
    change (Py.replace "Loaded image ID: sha256:" ""
              (Py.replace Py.newline ""
                 ("Loaded image ID: sha256:abc123" +++ Py.newline)))
      with "abc123".
    cbv iota.
    destruct (exit_code_of (removal_of docker_cli "myimg:latest" uuid4) =? 0)%Z;
      destruct (exit_code_of (tag_of docker_cli "abc123" "myimg:latest") =? 0)%Z;
      (split; [read_trace; reflexivity | cbn; tauto]).
  - change (Py.contains "sha256:" ("Loaded image: myimg:latest" +++ Py.newline))
      with false.
    cbv iota.
    destruct (exit_code_of (removal_of docker_cli "myimg:latest" uuid4) =? 0)%Z;
      read_trace; reflexivity.
Qed.

Lemma load_tags_untagged_image_only_witness :
  tag_commands
    (snd (run (load_image_to_docker_host removal_fails
                 (load_prints untagged_output) sample_settings sample_tar
                 "myimg:latest" None "0b1f")))
  = [["docker"; "tag"; "abc123"; "myimg:latest"]]
  /\ tag_commands
       (snd (run (load_image_to_docker_host removal_fails
                    (load_prints tagged_output) sample_settings sample_tar
                    "myimg:latest" None "0b1f")))
     = [].
Proof.
  split.
  - exact (proj1 (proj1 (load_tags_untagged_image_only removal_fails
                           (load_prints untagged_output) sample_settings
                           sample_tar None "0b1f" eq_refl) eq_refl)).
  - exact (proj2 (load_tags_untagged_image_only removal_fails
                    (load_prints tagged_output) sample_settings sample_tar
                    None "0b1f" eq_refl) eq_refl).
Defined.

(** C5, as stated, fails: a load output with no ["sha256:"] and without
    the target tag is logged and the function returns normally, with no
    tag command and no error. *)
Lemma unrecognised_load_output_not_surfaced :
  Py.contains "sha256:" unrecognised_output = false
  /\ Py.contains "myimg:latest" unrecognised_output = false
  /\ fst (run (load_image_to_docker_host all_succeed
                 (load_prints unrecognised_output) sample_settings sample_tar
                 "myimg:latest" None "0b1f"))
     = Ok tt
  /\ awaited
       (snd (run (load_image_to_docker_host all_succeed
                    (load_prints unrecognised_output) sample_settings
                    sample_tar "myimg:latest" None "0b1f")))
     = [["docker"; "image"; "rm"; "myimg:latest"];
        ["docker"; "load"; "--input"; "0b1f.tar"]].
Proof.
  repeat split; vm_compute; reflexivity.
Qed.

(** C5, amended.  When the load command succeeds and its output has no
    ["sha256:"], whether or not the output reports the target tag,
    [load_image_to_docker_host] logs the output and returns normally: the
    commands awaited are the removal and the load, and no tag command. *)
Theorem load_output_without_sha256_returns :
  forall (exit_code_of : Container -> Z) (stdout_of : Container -> string)
         (settings : GlobalSettings) (tar_file : File) (image_tag : string)
         (docker_service_name : option string) (uuid4 : string),
    let docker_cli := loader_cli settings tar_file docker_service_name uuid4 in
    let outcome :=
      run (load_image_to_docker_host exit_code_of stdout_of settings tar_file
             image_tag docker_service_name uuid4) in
    exit_code_of (load_of docker_cli uuid4) = 0%Z ->
    Py.contains "sha256:" (stdout_of (load_of docker_cli uuid4)) = false ->
    fst outcome = Ok tt
    /\ awaited (snd outcome)
       = [["docker"; "image"; "rm"; image_tag];
          ["docker"; "load"; "--input"; uuid4 +++ ".tar"]]
    /\ tag_commands (snd outcome) = []
    /\ last (snd outcome) (LogInfo "")
       = LogInfo (stdout_of (load_of docker_cli uuid4)).
Proof.
  intros exit_code_of stdout_of settings tar_file image_tag name uuid4
    docker_cli outcome Hload Hsha.
  subst outcome.
  rewrite load_image_to_docker_host_run. fold docker_cli.
  rewrite Hload, Hsha. cbn [Z.eqb].
  destruct (exit_code_of (removal_of docker_cli image_tag uuid4) =? 0)%Z;
    repeat split; read_trace; reflexivity.
Qed.

Lemma load_output_without_sha256_returns_witness :
  fst (run (load_image_to_docker_host all_succeed (load_prints tagged_output)
              sample_settings sample_tar "myimg:latest" None "0b1f"))
  = Ok tt.
Proof.
  exact (proj1 (load_output_without_sha256_returns all_succeed
                  (load_prints tagged_output) sample_settings sample_tar
                  "myimg:latest" None "0b1f" eq_refl eq_refl)).
Defined.

(** C7, as stated, fails: a removal that exits with a non-zero status is
    not logged.  Here the removal fails and the only line logged is the
    output of the load. *)
Lemma failed_removal_is_not_logged :
  removal_fails
    (removal_of (loader_cli sample_settings sample_tar None "0b1f")
       "myimg:latest" "0b1f") = 1%Z
  /\ fst (run (load_image_to_docker_host removal_fails
                 (load_prints tagged_output) sample_settings sample_tar
                 "myimg:latest" None "0b1f"))
     = Ok tt
  /\ logged
       (snd (run (load_image_to_docker_host removal_fails
                    (load_prints tagged_output) sample_settings sample_tar
                    "myimg:latest" None "0b1f")))
     = [tagged_output].
Proof.
  repeat split; vm_compute; reflexivity.
Qed.

(** C7, amended.  A removal that exits with a non-zero status does not
    abort the operation and is not logged: the load is awaited right after
    it, and the operation succeeds when the load succeeds and either its
    output has no ["sha256:"] or the tag command succeeds.  A load that
    exits with a non-zero status makes the operation fail with that
    status. *)
Theorem removal_failure_swallowed_load_failure_raised :
  forall (exit_code_of : Container -> Z) (stdout_of : Container -> string)
         (settings : GlobalSettings) (tar_file : File) (image_tag : string)
         (docker_service_name : option string) (uuid4 : string),
    let docker_cli := loader_cli settings tar_file docker_service_name uuid4 in
    let removal := removal_of docker_cli image_tag uuid4 in
    let load := load_of docker_cli uuid4 in
    let tag :=
      tag_of docker_cli
        (Py.replace "Loaded image ID: sha256:" ""
           (Py.replace Py.newline "" (stdout_of load)))
        image_tag in
    let outcome :=
      run (load_image_to_docker_host exit_code_of stdout_of settings tar_file
             image_tag docker_service_name uuid4) in
    (exit_code_of removal <> 0%Z ->
     (exists rest,
         snd outcome = AwaitExitCode removal :: AwaitStdout load :: rest)
     /\ (exit_code_of load = 0%Z ->
         Py.contains "sha256:" (stdout_of load) = false
         \/ exit_code_of tag = 0%Z ->
         fst outcome = Ok tt))
    /\ (exit_code_of load <> 0%Z ->
        fst outcome = Err (ExecError (exit_code_of load))
        /\ tag_commands (snd outcome) = []).
Proof.
  intros exit_code_of stdout_of settings tar_file image_tag name uuid4
    docker_cli removal load tag outcome.
  subst outcome.
  rewrite load_image_to_docker_host_run.
  fold docker_cli. fold removal. fold load. fold tag.
  split.
  - intros Hrm. apply Z.eqb_neq in Hrm. rewrite Hrm. split.
    + destruct (exit_code_of load =? 0)%Z;
        [destruct (Py.contains "sha256:" (stdout_of load));
         [destruct (exit_code_of tag =? 0)%Z|]|];
        eexists; reflexivity.
    + intros Hload Hok. rewrite Hload. cbn [Z.eqb].
      destruct (Py.contains "sha256:" (stdout_of load)); [|reflexivity].
      destruct Hok as [Hok|Hok]; [discriminate|].
      rewrite Hok. reflexivity.
  - intros Hload. apply Z.eqb_neq in Hload. rewrite Hload.
    split; [reflexivity|].
    subst removal load.
    destruct (exit_code_of (removal_of docker_cli image_tag uuid4) =? 0)%Z;
      read_trace; reflexivity.
Qed.

Lemma removal_failure_swallowed_load_failure_raised_witness :
  fst (run (load_image_to_docker_host removal_fails
              (load_prints tagged_output) sample_settings sample_tar
              "myimg:latest" None "0b1f"))
  = Ok tt
  /\ fst (run (load_image_to_docker_host load_fails
                 (load_prints tagged_output) sample_settings sample_tar
                 "myimg:latest" None "0b1f"))
     = Err (ExecError 1).
Proof.
  split.
  - apply (proj1 (removal_failure_swallowed_load_failure_raised removal_fails
                    (load_prints tagged_output) sample_settings sample_tar
                    "myimg:latest" None "0b1f"));
      [discriminate | reflexivity | left; reflexivity].
  - apply (proj2 (removal_failure_swallowed_load_failure_raised load_fails
                    (load_prints tagged_output) sample_settings sample_tar
                    "myimg:latest" None "0b1f")).
    discriminate.
Defined.

(* ================================================================= *)
(** ** Steps that run commands, steps that mount directories *)

Lemma commands_of_execs (cmds : list (list string)) :
  commands (map exec_step cmds) = cmds.
Proof. induction cmds; simpl; [reflexivity | now f_equal]. Qed.

Lemma directory_mounts_of_execs (cmds : list (list string)) :
  directory_mounts (map exec_step cmds) = [].
Proof. induction cmds; simpl; auto. Qed.

Lemma cache_mounts_of_execs (cmds : list (list string)) :
  cache_mounts (map exec_step cmds) = [].
Proof. induction cmds; simpl; auto. Qed.

Lemma service_bindings_of_execs (cmds : list (list string)) :
  service_bindings (map exec_step cmds) = [].
Proof. induction cmds; simpl; auto. Qed.

Lemma env_steps_of_execs (cmds : list (list string)) :
  env_steps (map exec_step cmds) = [].
Proof. induction cmds; simpl; auto. Qed.

Lemma cache_mounts_of_mounts {A : Type} (path : A -> string)
    (dir : A -> Directory) (l : list A) :
  cache_mounts (map (fun x => WithMountedDirectory (path x) (dir x)) l) = [].
Proof. induction l; simpl; auto. Qed.

Lemma service_bindings_of_mounts {A : Type} (path : A -> string)
    (dir : A -> Directory) (l : list A) :
  service_bindings (map (fun x => WithMountedDirectory (path x) (dir x)) l) = [].
Proof. induction l; simpl; auto. Qed.

Lemma env_steps_of_mounts {A : Type} (path : A -> string)
    (dir : A -> Directory) (l : list A) :
  env_steps (map (fun x => WithMountedDirectory (path x) (dir x)) l) = [].
Proof. induction l; simpl; auto. Qed.

Lemma env_steps_app (c d : Container) :
  env_steps (c ++ d) = env_steps c ++ env_steps d.
Proof.
  induction c as [|s c IH]; simpl; [reflexivity|].
  destruct s; simpl; now rewrite ?IH.
Qed.

Lemma file_mounts_app (c d : Container) :
  file_mounts (c ++ d) = file_mounts c ++ file_mounts d.
Proof.
  induction c as [|s c IH]; simpl; [reflexivity|].
  destruct s; simpl; now rewrite ?IH.
Qed.

Lemma exposed_ports_app (c d : Container) :
  exposed_ports (c ++ d) = exposed_ports c ++ exposed_ports d.
Proof.
  induction c as [|s c IH]; simpl; [reflexivity|].
  destruct s; simpl; now rewrite ?IH.
Qed.

(** The environment variable read back is the last entry of that name. *)
Lemma env_variable_env_steps (name : string) (c : Container) :
  env_variable name c
  = option_map snd
      (find (fun e => String.eqb (fst e) name) (rev (env_steps c))).
Proof.
  induction c as [|s c IH] using rev_ind; [reflexivity|].
  rewrite env_steps_app, rev_app_distr.
  unfold env_variable in *. rewrite fold_left_app.
  destruct s; cbn [fold_left env_steps rev app]; try exact IH.
  cbn [find fst snd]. destruct (String.eqb name0 name); [reflexivity|].
  exact IH.
Qed.

Ltac read_steps :=
  rewrite ?commands_app, ?directory_mounts_app, ?cache_mounts_app,
    ?service_bindings_app, ?env_steps_app, ?file_mounts_app,
    ?exposed_ports_app;
  rewrite ?commands_of_execs, ?directory_mounts_of_execs,
    ?cache_mounts_of_execs, ?service_bindings_of_execs, ?env_steps_of_execs,
    ?commands_of_mounts, ?directory_mounts_of_mounts, ?cache_mounts_of_mounts,
    ?service_bindings_of_mounts, ?env_steps_of_mounts;
  cbn [commands directory_mounts cache_mounts service_bindings env_steps
       file_mounts exposed_ports app];
  rewrite ?app_nil_r.

(* ================================================================= *)
(** ** Installing a python package: every manifest *)

Lemma with_python_package_steps (settings : GlobalSettings)
    (python_environment : Container) (package_source_code_path : string)
    (exclude : option (list string)) :
  with_python_package settings python_environment package_source_code_path
    exclude
  = python_environment
    ++ [WithMountedDirectory ("/" +++ package_source_code_path)
          (get_repo_dir package_source_code_path None
             (Some (DEFAULT_PYTHON_EXCLUDE settings
                    ++ match exclude with Some l => l | None => [] end)));
        WithWorkdir ("/" +++ package_source_code_path)].
Proof.
  unfold with_python_package, with_workdir, with_mounted_directory.
  rewrite <- app_assoc.
  destruct exclude as [[|e es]|]; simpl; now rewrite ?app_nil_r.
Qed.

(** The steps of [with_installed_python_package], for every answer to the
    read of requirements.txt and every choice of extras. *)
Lemma with_installed_python_package_steps
    (file_contents : Container -> string -> option string)
    (settings : GlobalSettings) (python_environment : Container)
    (package_source_code_path : string)
    (additional_dependency_groups exclude : option (list string)) :
  let package :=
    with_python_package settings python_environment package_source_code_path
      exclude in
  let manifest := get_file_contents file_contents package "requirements.txt" in
  with_installed_python_package file_contents settings python_environment
    package_source_code_path additional_dependency_groups exclude
  = package
    ++ map (fun line =>
              WithMountedDirectory
                ("/" +++ package_source_code_path +++ "/" +++ Py.drop 3 line)
                (get_repo_dir
                   (package_source_code_path +++ "/" +++ Py.drop 3 line) None
                   (Some (DEFAULT_PYTHON_EXCLUDE settings))))
        (filter (fun line => Py.startswith line "-e .")
           (manifest_lines manifest))
    ++ map exec_step
         (match manifest with
          | Some (String _ _) => [install_local_requirements_cmd]
          | _ => []
          end
          ++ install_connector_package_cmd
          :: match additional_dependency_groups with
             | Some (g :: gs) =>
                 [["python"; "-m"; "pip"; "install";
                   ".[" +++ Py.join "," (g :: gs) +++ "]"]]
             | _ => []
             end).
Proof.
  intros package manifest.
  unfold with_installed_python_package. fold package. fold manifest.
  destruct manifest as [[|a txt]|]; cbn [manifest_lines filter map app];
    rewrite ?fold_mount_local_dependency; unfold with_exec, exec_step;
    destruct additional_dependency_groups as [[|g gs]|];
    cbn [map app Py.but_last Py.last_item removelast last
         install_connector_package_cmd];
    rewrite <- ?app_assoc; reflexivity.
Qed.

(** X1.  Whatever the read of requirements.txt answers and whatever the
    extras, the commands [with_installed_python_package] adds are, in
    order: the install from the manifest when the manifest was read and
    is not empty, the install of the package, and the install of the
    package with its extras, comma-joined in the caller's order, when there
    is at least one group.  The install of the package occurs once among
    them. *)
Theorem installed_package_command_sequence :
  forall (file_contents : Container -> string -> option string)
         (settings : GlobalSettings) (python_environment : Container)
         (package_source_code_path : string)
         (additional_dependency_groups exclude : option (list string)),
    let manifest :=
      get_file_contents file_contents
        (with_python_package settings python_environment
           package_source_code_path exclude)
        "requirements.txt" in
    let added :=
      match manifest with
      | Some (String _ _) => [install_local_requirements_cmd]
      | _ => []
      end
      ++ install_connector_package_cmd
      :: match additional_dependency_groups with
         | Some (g :: gs) =>
             [["python"; "-m"; "pip"; "install";
               ".[" +++ Py.join "," (g :: gs) +++ "]"]]
         | _ => []
         end in
    commands
      (with_installed_python_package file_contents settings python_environment
         package_source_code_path additional_dependency_groups exclude)
    = commands python_environment ++ added
    /\ count_command install_connector_package_cmd added = 1.
Proof.
  intros fc settings env pkg groups exclude manifest added.
  split.
  - rewrite with_installed_python_package_steps. fold manifest.
    rewrite with_python_package_steps. read_steps. reflexivity.
  - subst added. unfold count_command.
    destruct manifest as [[|a txt]|];
      destruct groups as [[|g gs]|]; cbn [app count_occ];
      repeat match goal with
        | |- context [list_eq_dec string_dec ?a ?b] =>
            destruct (list_eq_dec string_dec a b);
            try discriminate; try congruence
        end.
Qed.

Lemma workdir_set (c : Container) (path : string) :
  workdir (c ++ [WithWorkdir path]) = Some path.
Proof. unfold workdir. now rewrite fold_left_app. Qed.

Lemma workdir_app_mounts {A : Type} (path : A -> string) (dir : A -> Directory)
    (l : list A) (c : Container) :
  workdir (c ++ map (fun x => WithMountedDirectory (path x) (dir x)) l)
  = workdir c.
Proof.
  unfold workdir. rewrite fold_left_app.
  generalize (fold_left
    (fun acc s => match s with WithWorkdir p => Some p | _ => acc end) c None).
  induction l as [|x l IH]; intros acc; simpl; auto.
Qed.

Lemma workdir_app_execs (cmds : list (list string)) (c : Container) :
  workdir (c ++ map exec_step cmds) = workdir c.
Proof.
  unfold workdir. rewrite fold_left_app.
  generalize (fold_left
    (fun acc s => match s with WithWorkdir p => Some p | _ => acc end) c None).
  induction cmds as [|x l IH]; intros acc; simpl; auto.
Qed.

(** X2.  Whatever the read of requirements.txt answers,
    [with_installed_python_package] mounts the package at ["/" + path]
    with the default exclusions followed by the caller's, then one
    directory for each line of the manifest that starts with ["-e ."], with
    the default exclusions only; it leaves the working directory at the
    package, and it changes no cache mount, no service binding and no
    environment variable of the python environment. *)
Theorem installed_package_mounts_and_frame :
  forall (file_contents : Container -> string -> option string)
         (settings : GlobalSettings) (python_environment : Container)
         (package_source_code_path : string)
         (additional_dependency_groups exclude : option (list string)),
    let manifest :=
      get_file_contents file_contents
        (with_python_package settings python_environment
           package_source_code_path exclude)
        "requirements.txt" in
    let installed :=
      with_installed_python_package file_contents settings python_environment
        package_source_code_path additional_dependency_groups exclude in
    directory_mounts installed
    = directory_mounts python_environment
      ++ ("/" +++ package_source_code_path,
          get_repo_dir package_source_code_path None
            (Some (DEFAULT_PYTHON_EXCLUDE settings
                   ++ match exclude with Some l => l | None => [] end)))
      :: map (fun line =>
                ("/" +++ package_source_code_path +++ "/" +++ Py.drop 3 line,
                 get_repo_dir
                   (package_source_code_path +++ "/" +++ Py.drop 3 line) None
                   (Some (DEFAULT_PYTHON_EXCLUDE settings))))
           (filter (fun line => Py.startswith line "-e .")
              (manifest_lines manifest))
    /\ workdir installed = Some ("/" +++ package_source_code_path)
    /\ cache_mounts installed = cache_mounts python_environment
    /\ service_bindings installed = service_bindings python_environment
    /\ (forall name : string,
          env_variable name installed = env_variable name python_environment).
Proof.
  intros fc settings env pkg groups exclude manifest installed.
  subst installed.
  rewrite with_installed_python_package_steps. fold manifest.
  rewrite with_python_package_steps.
  repeat split.
  - rewrite !directory_mounts_app.
    rewrite (directory_mounts_of_mounts
               (fun line => "/" +++ pkg +++ "/" +++ Py.drop 3 line)
               (fun line =>
                  get_repo_dir (pkg +++ "/" +++ Py.drop 3 line) None
                    (Some (DEFAULT_PYTHON_EXCLUDE settings)))).
    read_steps. rewrite <- ?app_assoc. reflexivity.
  - rewrite !app_assoc, workdir_app_execs.
    rewrite (workdir_app_mounts
               (fun line => "/" +++ pkg +++ "/" +++ Py.drop 3 line)
               (fun line =>
                  get_repo_dir (pkg +++ "/" +++ Py.drop 3 line) None
                    (Some (DEFAULT_PYTHON_EXCLUDE settings)))).
    change [WithMountedDirectory ("/" +++ pkg)
              (get_repo_dir pkg None
                 (Some (DEFAULT_PYTHON_EXCLUDE settings
                        ++ match exclude with Some l => l | None => [] end)));
            WithWorkdir ("/" +++ pkg)]
      with ([WithMountedDirectory ("/" +++ pkg)
               (get_repo_dir pkg None
                  (Some (DEFAULT_PYTHON_EXCLUDE settings
                         ++ match exclude with Some l => l | None => [] end)))]
            ++ [WithWorkdir ("/" +++ pkg)]).
    rewrite app_assoc. apply workdir_set.
  - read_steps. reflexivity.
  - read_steps. reflexivity.
  - intros name. rewrite !env_variable_env_steps. read_steps. reflexivity.
Qed.

(* ================================================================= *)
(** ** A manifest written line by line *)

Lemma split_not_nil (sep : ascii) (s : string) : Py.split sep s <> [].
Proof.
  destruct s as [|c t]; simpl; [discriminate|].
  destruct (Ascii.eqb c sep); [discriminate|].
  destruct (Py.split sep t); discriminate.
Qed.

Lemma split_line_then (line rest : string) :
  no_line_feed line = true ->
  Py.split Py.LF (line +++ String Py.LF rest)
  = line :: Py.split Py.LF rest.
Proof.
  unfold no_line_feed.
  induction line as [|c line IH]; intros H.
  - cbn [String.append Py.split]. now rewrite Ascii.eqb_refl.
  - cbn [all_chars] in H. apply andb_true_iff in H as [Hc H].
    cbn [String.append Py.split].
    apply negb_true_iff in Hc. rewrite Hc, (IH H). reflexivity.
Qed.

Lemma split_one_line (line : string) :
  no_line_feed line = true -> Py.split Py.LF line = [line].
Proof.
  unfold no_line_feed.
  induction line as [|c line IH]; intros H; [reflexivity|].
  cbn [all_chars] in H. apply andb_true_iff in H as [Hc H].
  cbn [Py.split]. apply negb_true_iff in Hc. rewrite Hc, (IH H). reflexivity.
Qed.

(** Splitting at line feeds what was joined with line feeds gives the
    lines back. *)
Lemma split_join_lines (lines : list string) :
  lines <> [] ->
  Forall (fun line => no_line_feed line = true) lines ->
  Py.split Py.LF (Py.join Py.newline lines) = lines.
Proof.
  unfold Py.join.
  induction lines as [|line lines IH]; intros Hne Hall; [congruence|].
  inversion Hall as [|? ? Hline Hrest]; subst.
  destruct lines as [|next lines].
  - simpl. now apply split_one_line.
  - change (String.concat Py.newline (line :: next :: lines))
      with (line +++ String Py.LF (String.concat Py.newline (next :: lines))).
    rewrite split_line_then by assumption.
    f_equal. apply IH; [discriminate | assumption].
Qed.

(** X3.  When requirements.txt holds the lines [lines] joined by line
    feeds, the directories mounted after the package are those of the
    lines that start with ["-e ."], in order, each at the package path
    followed by ["/"] and the line without its first three characters,
    taken as it is written. *)
Theorem manifest_lines_mounted_verbatim :
  forall (file_contents : Container -> string -> option string)
         (settings : GlobalSettings) (python_environment : Container)
         (package_source_code_path : string)
         (additional_dependency_groups exclude : option (list string))
         (lines : list string),
    lines <> [] ->
    Forall (fun line => no_line_feed line = true) lines ->
    get_file_contents file_contents
      (with_python_package settings python_environment
         package_source_code_path exclude)
      "requirements.txt" = Some (Py.join Py.newline lines) ->
    directory_mounts
      (with_installed_python_package file_contents settings python_environment
         package_source_code_path additional_dependency_groups exclude)
    = directory_mounts
        (with_python_package settings python_environment
           package_source_code_path exclude)
      ++ map (fun line =>
                ("/" +++ package_source_code_path +++ "/" +++ Py.drop 3 line,
                 get_repo_dir
                   (package_source_code_path +++ "/" +++ Py.drop 3 line) None
                   (Some (DEFAULT_PYTHON_EXCLUDE settings))))
           (filter (fun line => Py.startswith line "-e .") lines).
Proof.
  intros fc settings env pkg groups exclude lines Hne Hall Hread.
  rewrite with_installed_python_package_steps. rewrite Hread.
  rewrite !directory_mounts_app.
  rewrite (directory_mounts_of_mounts
             (fun line => "/" +++ pkg +++ "/" +++ Py.drop 3 line)
             (fun line =>
                get_repo_dir (pkg +++ "/" +++ Py.drop 3 line) None
                  (Some (DEFAULT_PYTHON_EXCLUDE settings)))).
  rewrite directory_mounts_of_execs, app_nil_r.
  f_equal. f_equal.
  rewrite <- (split_join_lines lines Hne Hall) at 2.
  destruct (Py.join Py.newline lines); reflexivity.
Qed.

Lemma manifest_lines_mounted_verbatim_witness :
  map fst
    (directory_mounts
       (with_installed_python_package sibling_manifest sample_settings
          new_container "connector" None None))
  = ["/connector"; "/connector/./sibling"; "/connector/../shared"].
Proof.
  rewrite (manifest_lines_mounted_verbatim sibling_manifest sample_settings
             new_container "connector" None None
             ["requests==2.31"; "-e ./sibling"; "pytest"; "-e ../shared"; ""]
             ltac:(discriminate)
             ltac:(repeat constructor)
             eq_refl).
  reflexivity.
Defined.

(* ================================================================= *)
(** ** The daemon and the client, step by step *)

Lemma with_dockerd_service_steps (settings : GlobalSettings)
    (shared_volume : option (string * CacheVolume))
    (docker_service_name : option string) :
  with_dockerd_service settings shared_volume docker_service_name
  = [From (DOCKER_DIND_IMAGE settings);
     WithMountedCache "/var/lib/docker"
       (cache_volume
          (docker_lib_volume_name shared_volume docker_service_name))
       (Some SHARED)]
    ++ map (fun m => WithMountedCache (fst (fst m)) (snd (fst m)) (snd m))
         (shared_mount shared_volume)
    ++ [WithExposedPort 2375;
        WithExec ["dockerd"; "--log-level=error";
                  "--host=tcp://0.0.0.0:2375"; "--tls=false"] true].
Proof.
  destruct shared_volume as [[p v]|];
    destruct docker_service_name as [[|a n]|]; reflexivity.
Qed.

Lemma with_bound_docker_host_steps (settings : GlobalSettings)
    (container : Container) (shared_volume : option (string * CacheVolume))
    (docker_service_name : option string) :
  with_bound_docker_host settings container shared_volume docker_service_name
  = container
    ++ [WithEnvVariable "DOCKER_HOST"
          ("tcp://"
           +++ docker_lib_volume_name shared_volume docker_service_name
           +++ ":2375");
        WithServiceBinding
          (docker_lib_volume_name shared_volume docker_service_name)
          (with_dockerd_service settings shared_volume docker_service_name)]
    ++ map (fun m => WithMountedCache (fst (fst m)) (snd (fst m)) (snd m))
         (shared_mount shared_volume).
Proof.
  unfold with_bound_docker_host, with_mounted_cache, with_service_binding,
    with_env_variable, docker_lib_volume_name.
  destruct shared_volume as [[p v]|];
    destruct docker_service_name as [[|a n]|];
    cbn [shared_mount map fst snd]; rewrite <- ?app_assoc; reflexivity.
Qed.

Lemma cache_mounts_of_caches
    (l : list (string * CacheVolume * option CacheSharingMode)) :
  cache_mounts
    (map (fun m => WithMountedCache (fst (fst m)) (snd (fst m)) (snd m)) l)
  = l.
Proof.
  induction l as [|[[p v] m] l IH]; simpl; [reflexivity | now f_equal].
Qed.

(** X4.  The client and the daemon mount the shared volume alike: when a
    shared volume is given, [with_bound_docker_host] mounts it last on the
    client, and the daemon mounts the same volume at the same path right
    after its storage volume, which is mounted [SHARED]; when none is
    given, the client gets no cache mount and the storage volume is the
    only cache of the daemon. *)
Theorem shared_volume_on_client_and_daemon :
  forall (settings : GlobalSettings) (container : Container)
         (shared_volume : option (string * CacheVolume))
         (docker_service_name : option string),
    cache_mounts
      (with_bound_docker_host settings container shared_volume
         docker_service_name)
    = cache_mounts container ++ shared_mount shared_volume
    /\ cache_mounts
         (with_dockerd_service settings shared_volume docker_service_name)
       = ("/var/lib/docker",
          cache_volume
            (docker_lib_volume_name shared_volume docker_service_name),
          Some SHARED)
         :: shared_mount shared_volume.
Proof.
  intros settings container shared_volume docker_service_name. split.
  - rewrite with_bound_docker_host_steps, !cache_mounts_app.
    now rewrite cache_mounts_of_caches.
  - rewrite with_dockerd_service_steps, !cache_mounts_app.
    rewrite cache_mounts_of_caches. cbn [cache_mounts app].
    now rewrite app_nil_r.
Qed.

Lemma env_variable_of_last_entry (name : string) (c : Container)
    (entries : list (string * string)) (n v : string) :
  env_steps c = entries ++ [(n, v)] ->
  env_variable name c
  = if String.eqb n name then Some v
    else option_map snd
           (find (fun e => String.eqb (fst e) name) (rev entries)).
Proof.
  intros H. rewrite env_variable_env_steps, H, rev_app_distr.
  cbn [rev app find fst]. now destruct (String.eqb n name).
Qed.

(** X5.  Binding a client to the docker host adds no command, no
    directory mount and no file mount to it, and sets one environment
    variable, [DOCKER_HOST], after those the client already has: every
    other variable reads as before, and an earlier [DOCKER_HOST] is
    overridden. *)
Theorem docker_host_binding_frame :
  forall (settings : GlobalSettings) (container : Container)
         (shared_volume : option (string * CacheVolume))
         (docker_service_name : option string),
    let bound :=
      with_bound_docker_host settings container shared_volume
        docker_service_name in
    commands bound = commands container
    /\ directory_mounts bound = directory_mounts container
    /\ file_mounts bound = file_mounts container
    /\ exposed_ports bound = exposed_ports container
    /\ env_steps bound
       = env_steps container
         ++ [("DOCKER_HOST",
              "tcp://"
              +++ docker_lib_volume_name shared_volume docker_service_name
              +++ ":2375")]
    /\ (forall name : string,
          name <> "DOCKER_HOST" ->
          env_variable name bound = env_variable name container).
Proof.
  intros settings container shared_volume docker_service_name bound.
  subst bound. rewrite with_bound_docker_host_steps.
  assert (Henv :
    env_steps
      (container
       ++ [WithEnvVariable "DOCKER_HOST"
             ("tcp://"
              +++ docker_lib_volume_name shared_volume docker_service_name
              +++ ":2375");
           WithServiceBinding
             (docker_lib_volume_name shared_volume docker_service_name)
             (with_dockerd_service settings shared_volume docker_service_name)]
       ++ map (fun m => WithMountedCache (fst (fst m)) (snd (fst m)) (snd m))
            (shared_mount shared_volume))
    = env_steps container
      ++ [("DOCKER_HOST",
           "tcp://"
           +++ docker_lib_volume_name shared_volume docker_service_name
           +++ ":2375")]).
  { destruct shared_volume as [[p v]|]; cbn [shared_mount map];
      read_steps; reflexivity. }
  repeat split.
  - destruct shared_volume as [[p v]|]; cbn [shared_mount map];
      read_steps; reflexivity.
  - destruct shared_volume as [[p v]|]; cbn [shared_mount map];
      read_steps; reflexivity.
  - destruct shared_volume as [[p v]|]; cbn [shared_mount map];
      read_steps; reflexivity.
  - destruct shared_volume as [[p v]|]; cbn [shared_mount map];
      read_steps; reflexivity.
  - exact Henv.
  - intros name Hname.
    rewrite (env_variable_of_last_entry name _ _ _ _ Henv).
    destruct (String.eqb_spec "DOCKER_HOST" name) as [E|_]; [congruence|].
    symmetry. apply env_variable_env_steps.
Qed.

Lemma docker_host_binding_frame_witness :
  env_variable "GRADLE_HOME"
    (with_bound_docker_host sample_settings
       (with_gradle sample_settings None false None) None (Some "gradle"))
  = Some "/root/.gradle".
Proof.
  rewrite (proj2 (proj2 (proj2 (proj2 (proj2
             (docker_host_binding_frame sample_settings
                (with_gradle sample_settings None false None) None
                (Some "gradle")))))) "GRADLE_HOME" ltac:(discriminate)).
  reflexivity.
Defined.

(** X6.  The name of the daemon's storage volume, which is also the
    host name, is built from the path at which the shared volume is
    mounted, not from the volume: with the same service name, two shared
    volumes mounted at different paths give different names, and a daemon
    with a shared volume never has the name of a daemon without one. *)
Theorem shared_volume_path_separates_daemons :
  forall (settings settings' : GlobalSettings) (path path' : string)
         (volume volume' : CacheVolume) (docker_service_name : option string),
    (path <> path' ->
     daemon_storage
       (with_dockerd_service settings (Some (path, volume)) docker_service_name)
     <> daemon_storage
          (with_dockerd_service settings' (Some (path', volume'))
             docker_service_name))
    /\ daemon_storage
         (with_dockerd_service settings (Some (path, volume))
            docker_service_name)
       <> daemon_storage
            (with_dockerd_service settings' None docker_service_name).
Proof.
  intros settings settings' path path' volume volume' name.
  assert (Hstore : forall s sv,
    daemon_storage (with_dockerd_service s sv name)
    = Some (docker_lib_volume_name sv name)).
  { intros s sv. rewrite with_dockerd_service_steps.
    destruct sv as [[p v]|]; reflexivity. }
  rewrite !Hstore. unfold docker_lib_volume_name. cbn [fst].
  assert (Hbase : path +++ "-docker-lib" <> "docker-lib").
  { intros H. apply (f_equal String.length) in H.
    rewrite length_append in H. simpl in H. lia. }
  split.
  - intros Hne E. injection E as E.
    destruct name as [[|a n]|]; repeat apply append_cancel_r in E;
      contradiction.
  - intros E. injection E as E.
    destruct name as [[|a n]|]; apply Hbase; [exact E | | exact E].
    exact (append_cancel_r (path +++ "-docker-lib") "docker-lib"
             ("-" +++ slugify (String a n)) E).
Qed.

Lemma shared_volume_path_separates_daemons_witness :
  daemon_storage
    (with_dockerd_service sample_settings
       (Some ("/tmp", cache_volume "share-tmp-gradle")) (Some "gradle"))
  <> daemon_storage
       (with_dockerd_service sample_settings
          (Some ("/var/tmp", cache_volume "share-tmp-gradle")) (Some "gradle")).
Proof.
  apply (proj1 (shared_volume_path_separates_daemons sample_settings
                  sample_settings "/tmp" "/var/tmp"
                  (cache_volume "share-tmp-gradle")
                  (cache_volume "share-tmp-gradle") (Some "gradle"))).
  discriminate.
Defined.

(* ================================================================= *)
(** ** The gradle environment, step by step *)

Lemma with_gradle_steps (settings : GlobalSettings)
    (sources_to_include : option (list string)) (bind_to_docker_host : bool)
    (docker_service_name : option string) :
  let shared_tmp_volume := Some ("/tmp", cache_volume "share-tmp-gradle") in
  with_gradle settings sources_to_include bind_to_docker_host
    docker_service_name
  = [From "openjdk:17.0.1-jdk-slim";
     WithExec ["apt-get"; "update"] false;
     WithExec ["apt-get"; "install"; "-y"; "curl"; "jq"; "rsync"] false;
     WithEnvVariable "VERSION" (DOCKER_VERSION settings);
     WithExec ["sh"; "-c"; "curl -fsSL https://get.docker.com | sh"] false;
     WithEnvVariable "GRADLE_HOME" "/root/.gradle";
     WithExec ["mkdir"; "/airbyte"] false;
     WithWorkdir "/airbyte";
     WithMountedDirectory "/airbyte"
       (get_repo_dir "."
          (Some (gradle_include
                 ++ match sources_to_include with
                    | Some l => l
                    | None => []
                    end))
          None);
     WithExec ["mkdir"; "-p"; GRADLE_READ_ONLY_DEPENDENCY_CACHE_PATH settings]
       false;
     WithMountedCache (GRADLE_BUILD_CACHE_PATH settings)
       (cache_volume "gradle-build-cache") (Some LOCKED);
     WithMountedCache (GRADLE_READ_ONLY_DEPENDENCY_CACHE_PATH settings)
       (cache_volume "gradle-dependencies-caching") None;
     WithEnvVariable "GRADLE_RO_DEP_CACHE"
       (GRADLE_READ_ONLY_DEPENDENCY_CACHE_PATH settings)]
    ++ if bind_to_docker_host then
         [WithEnvVariable "DOCKER_HOST"
            ("tcp://"
             +++ docker_lib_volume_name shared_tmp_volume docker_service_name
             +++ ":2375");
          WithServiceBinding
            (docker_lib_volume_name shared_tmp_volume docker_service_name)
            (with_dockerd_service settings shared_tmp_volume
               docker_service_name);
          WithMountedCache "/tmp" (cache_volume "share-tmp-gradle") None]
       else [].
Proof.
  intros shared_tmp_volume. unfold with_gradle.
  destruct bind_to_docker_host.
  - rewrite with_bound_docker_host_steps.
    destruct sources_to_include as [[|s ss]|]; reflexivity.
  - destruct sources_to_include as [[|s ss]|]; reflexivity.
Qed.

(** X7.  Without [bind_to_docker_host] the gradle container has no
    [DOCKER_HOST] and no service binding.  With it, the container reads
    [DOCKER_HOST] as the daemon named after the [/tmp] mount and the
    service name, has that daemon as its only service binding, and mounts
    the [share-tmp-gradle] volume at [/tmp] as the daemon does; the
    binding adds no command and no directory mount. *)
Theorem with_gradle_docker_binding :
  forall (settings : GlobalSettings) (sources_to_include : option (list string))
         (docker_service_name : option string),
    let unbound :=
      with_gradle settings sources_to_include false docker_service_name in
    let bound :=
      with_gradle settings sources_to_include true docker_service_name in
    let shared_tmp_volume := Some ("/tmp", cache_volume "share-tmp-gradle") in
    let hostname :=
      docker_lib_volume_name shared_tmp_volume docker_service_name in
    env_variable "DOCKER_HOST" unbound = None
    /\ service_bindings unbound = []
    /\ env_variable "DOCKER_HOST" bound = Some ("tcp://" +++ hostname +++ ":2375")
    /\ service_bindings bound
       = [(hostname,
           with_dockerd_service settings shared_tmp_volume docker_service_name)]
    /\ cache_mounts bound
       = cache_mounts unbound
         ++ [("/tmp", cache_volume "share-tmp-gradle", None)]
    /\ In ("/tmp", cache_volume "share-tmp-gradle", None)
         (cache_mounts
            (with_dockerd_service settings shared_tmp_volume
               docker_service_name))
    /\ commands bound = commands unbound
    /\ directory_mounts bound = directory_mounts unbound.
Proof.
  intros settings sources name unbound bound shared_tmp_volume hostname.
  subst unbound bound. rewrite !with_gradle_steps.
  fold shared_tmp_volume. fold hostname.
  repeat split; try reflexivity.
  rewrite with_dockerd_service_steps. cbn. tauto.
Qed.

(** X8.  Whether bound to a docker host or not, the gradle container
    mounts one directory, the repository filtered by the fixed list of
    gradle files followed by the caller's sources, at [/airbyte], which is
    its working directory; [GRADLE_RO_DEP_CACHE] holds the path at which
    the dependency cache is mounted, and that path is created by a command
    that comes before the mount. *)
Theorem with_gradle_sources_and_paths :
  forall (settings : GlobalSettings) (sources_to_include : option (list string))
         (bind_to_docker_host : bool) (docker_service_name : option string),
    let gradle :=
      with_gradle settings sources_to_include bind_to_docker_host
        docker_service_name in
    let dependency_cache_path :=
      GRADLE_READ_ONLY_DEPENDENCY_CACHE_PATH settings in
    directory_mounts gradle
    = [("/airbyte",
        get_repo_dir "."
          (Some (gradle_include
                 ++ match sources_to_include with
                    | Some l => l
                    | None => []
                    end))
          None)]
    /\ workdir gradle = Some "/airbyte"
    /\ env_variable "GRADLE_RO_DEP_CACHE" gradle = Some dependency_cache_path
    /\ env_variable "VERSION" gradle = Some (DOCKER_VERSION settings)
    /\ env_variable "GRADLE_HOME" gradle = Some "/root/.gradle"
    /\ (exists before after : Container,
          gradle
          = before
            ++ WithMountedCache dependency_cache_path
                 (cache_volume "gradle-dependencies-caching") None
            :: after
          /\ In ["mkdir"; "-p"; dependency_cache_path] (commands before)
          /\ cache_sharing "gradle-dependencies-caching" before = [])
    /\ commands gradle
       = [["apt-get"; "update"];
          ["apt-get"; "install"; "-y"; "curl"; "jq"; "rsync"];
          ["sh"; "-c"; "curl -fsSL https://get.docker.com | sh"];
          ["mkdir"; "/airbyte"];
          ["mkdir"; "-p"; dependency_cache_path]].
Proof.
  intros settings sources bind name gradle dependency_cache_path.
  subst gradle.
  repeat split;
    try (rewrite with_gradle_steps; destruct bind; reflexivity).
  exists (firstn 11
            (with_gradle settings sources bind name)),
         (skipn 12 (with_gradle settings sources bind name)).
  rewrite with_gradle_steps. cbn [firstn skipn app].
  repeat split; try (destruct bind; reflexivity). cbn. tauto.
Qed.

(* ================================================================= *)
(** ** Installing packages *)

(** X9.  The three package installers only run commands: on every base
    container and for every list of packages, the empty list included,
    they keep the commands of the base and add theirs, the packages in the
    order given after the fixed command ([apt-get update] first for
    debian), and they add no mount, no environment variable and no service
    binding. *)
Theorem package_installers_only_run_commands :
  forall (base_container : Container) (packages_to_install : list string),
    let alpine := with_alpine_packages base_container packages_to_install in
    let debian := with_debian_packages base_container packages_to_install in
    let pip := with_pip_packages base_container packages_to_install in
    commands alpine
    = commands base_container ++ [["apk"; "add"] ++ packages_to_install]
    /\ commands debian
       = commands base_container
         ++ [["apt-get"; "update"];
             ["apt-get"; "install"; "-y"] ++ packages_to_install]
    /\ commands pip
       = commands base_container ++ [["pip"; "install"] ++ packages_to_install]
    /\ Forall
         (fun c =>
            directory_mounts c = directory_mounts base_container
            /\ cache_mounts c = cache_mounts base_container
            /\ file_mounts c = file_mounts base_container
            /\ env_steps c = env_steps base_container
            /\ service_bindings c = service_bindings base_container
            /\ workdir c = workdir base_container)
         [alpine; debian; pip].
Proof.
  intros base pkgs alpine debian pip. subst alpine debian pip.
  unfold with_alpine_packages, with_debian_packages, with_pip_packages,
    with_exec.
  repeat split; try (read_steps; rewrite <- ?app_assoc; reflexivity).
  repeat constructor; read_steps; try reflexivity;
    rewrite <- ?app_assoc;
    try apply (workdir_app_execs [_] base);
    apply (workdir_app_execs [_; _] base).
Qed.

(* ================================================================= *)
(** ** Loading an image: every outcome *)

(** X10.  [load_image_to_docker_host] returns normally exactly when the
    load command exits with status 0 and either its output has no
    ["sha256:"] or the tag command exits with status 0.  When it raises,
    the error carries the non-zero status of the load command, or, the
    load having succeeded with ["sha256:"] in its output, that of the tag
    command; the status of the removal never decides the outcome. *)
Theorem load_image_outcome :
  forall (exit_code_of : Container -> Z) (stdout_of : Container -> string)
         (settings : GlobalSettings) (tar_file : File) (image_tag : string)
         (docker_service_name : option string) (uuid4 : string),
    let docker_cli := loader_cli settings tar_file docker_service_name uuid4 in
    let load := load_of docker_cli uuid4 in
    let tag :=
      tag_of docker_cli
        (Py.replace "Loaded image ID: sha256:" ""
           (Py.replace Py.newline "" (stdout_of load)))
        image_tag in
    let outcome :=
      fst (run (load_image_to_docker_host exit_code_of stdout_of settings
                  tar_file image_tag docker_service_name uuid4)) in
    (outcome = Ok tt
     <-> exit_code_of load = 0%Z
         /\ (Py.contains "sha256:" (stdout_of load) = false
             \/ exit_code_of tag = 0%Z))
    /\ (forall e : exn,
          outcome = Err e ->
          (e = ExecError (exit_code_of load) /\ exit_code_of load <> 0%Z)
          \/ (e = ExecError (exit_code_of tag)
              /\ exit_code_of load = 0%Z
              /\ Py.contains "sha256:" (stdout_of load) = true
              /\ exit_code_of tag <> 0%Z)).
Proof.
  intros exit_code_of stdout_of settings tar_file image_tag name uuid4
    docker_cli load tag outcome.
  subst outcome. rewrite load_image_to_docker_host_run.
  fold docker_cli. fold load. fold tag.
  destruct (Z.eqb_spec (exit_code_of load) 0) as [Hload|Hload];
    [destruct (Py.contains "sha256:" (stdout_of load)) eqn:Hsha;
     [destruct (Z.eqb_spec (exit_code_of tag) 0) as [Htag|Htag]|]|];
    cbn [fst]; split.
  - split; auto.
  - discriminate.
  - split; [discriminate|]. intros [_ [H|H]]; [discriminate | contradiction].
  - intros e H. injection H as <-. right. auto.
  - split; auto.
  - discriminate.
  - split; [discriminate|]. intros [H _]. contradiction.
  - intros e H. injection H as <-. left. auto.
Qed.

(** X11.  The commands [load_image_to_docker_host] awaits are, in order,
    the removal, the load, and the tag when the load succeeded with
    ["sha256:"] in its output.  The lines it logs are, in order, the
    removal when it exited with status 0, the output of the load when it
    succeeded, and the output of the tag command when it succeeded. *)
Theorem load_image_awaited_and_logged :
  forall (exit_code_of : Container -> Z) (stdout_of : Container -> string)
         (settings : GlobalSettings) (tar_file : File) (image_tag : string)
         (docker_service_name : option string) (uuid4 : string),
    let docker_cli := loader_cli settings tar_file docker_service_name uuid4 in
    let removal := removal_of docker_cli image_tag uuid4 in
    let load := load_of docker_cli uuid4 in
    let image_id :=
      Py.replace "Loaded image ID: sha256:" ""
        (Py.replace Py.newline "" (stdout_of load)) in
    let tag := tag_of docker_cli image_id image_tag in
    let trace :=
      snd (run (load_image_to_docker_host exit_code_of stdout_of settings
                  tar_file image_tag docker_service_name uuid4)) in
    let tagging :=
      (exit_code_of load =? 0)%Z && Py.contains "sha256:" (stdout_of load) in
    awaited trace
    = ["docker"; "image"; "rm"; image_tag]
      :: ["docker"; "load"; "--input"; uuid4 +++ ".tar"]
      :: (if tagging then [["docker"; "tag"; image_id; image_tag]] else [])
    /\ logged trace
       = (if (exit_code_of removal =? 0)%Z
          then ["Removed an existing image tagged " +++ image_tag]
          else [])
         ++ (if (exit_code_of load =? 0)%Z then [stdout_of load] else [])
         ++ (if tagging && (exit_code_of tag =? 0)%Z
             then [stdout_of tag]
             else []).
Proof.
  intros exit_code_of stdout_of settings tar_file image_tag name uuid4
    docker_cli removal load image_id tag trace tagging.
  subst trace tagging. rewrite load_image_to_docker_host_run.
  fold docker_cli. fold removal. fold load. fold image_id. fold tag.
  destruct (exit_code_of removal =? 0)%Z;
    destruct (exit_code_of load =? 0)%Z;
    destruct (Py.contains "sha256:" (stdout_of load));
    destruct (exit_code_of tag =? 0)%Z;
    subst removal load tag;
    (split; [read_trace; reflexivity | reflexivity]).
Qed.

(* ================================================================= *)
(** ** Reading the image id off the load output *)

Lemma prefix_empty (s : string) : String.prefix "" s = true.
Proof. now destruct s. Qed.

Lemma prefix_append (a b : string) : String.prefix a (a +++ b) = true.
Proof.
  induction a as [|c a IH]; [apply prefix_empty|].
  simpl. destruct (ascii_dec c c); [exact IH | congruence].
Qed.

Lemma contains_append (needle before after : string) :
  Py.contains needle (before +++ needle +++ after) = true.
Proof.
  induction before as [|c before IH].
  - cbn [String.append].
    destruct (needle +++ after) eqn:E; cbn [Py.contains];
      rewrite <- E, prefix_append; reflexivity.
  - cbn [String.append Py.contains]. rewrite IH. apply orb_true_r.
Qed.

Lemma all_chars_append (p : ascii -> bool) (a b : string) :
  all_chars p (a +++ b) = all_chars p a && all_chars p b.
Proof.
  induction a as [|c a IH]; simpl; [reflexivity|].
  now rewrite IH, andb_assoc.
Qed.

Lemma all_chars_impl (p q : ascii -> bool) (s : string) :
  (forall c, p c = true -> q c = true) ->
  all_chars p s = true -> all_chars q s = true.
Proof.
  intros Hpq. induction s as [|c s IH]; simpl; [reflexivity|].
  intros H. apply andb_true_iff in H as [Hc H].
  now rewrite (Hpq c Hc), IH.
Qed.

Lemma hex_digit_is_not (h : ascii) :
  is_hex_digit h = false ->
  forall c, is_hex_digit c = true -> negb (Ascii.eqb c h) = true.
Proof.
  intros Hh c Hc. apply negb_true_iff.
  destruct (Ascii.eqb_spec c h) as [->|]; [congruence | reflexivity].
Qed.

(** Where the first character of [old] does not occur, nothing is
    replaced. *)
Lemma replace_from_without_head (h : ascii) (old new s : string) :
  all_chars (fun c => negb (Ascii.eqb c h)) s = true ->
  Py.replace_from (String h old) new 0 s = s.
Proof.
  induction s as [|c s IH]; intros H; [reflexivity|].
  cbn [all_chars] in H. apply andb_true_iff in H as [Hc H].
  cbn [Py.replace_from String.prefix].
  destruct (ascii_dec h c) as [->|_].
  - rewrite Ascii.eqb_refl in Hc. discriminate.
  - now rewrite (IH H).
Qed.

Lemma replace_from_skip (old new covered s : string) :
  Py.replace_from old new (String.length covered) (covered +++ s)
  = Py.replace_from old new 0 s.
Proof.
  induction covered as [|c covered IH]; [reflexivity|].
  destruct s as [|d s]; cbn [String.length String.append Py.replace_from];
    exact IH.
Qed.

(** An occurrence of [old] at the start is replaced, and the replacement
    goes on after it. *)
Lemma replace_from_match (h : ascii) (old new s : string) :
  Py.replace_from (String h old) new 0 (String h old +++ s)
  = new +++ Py.replace_from (String h old) new 0 s.
Proof.
  change (String h old +++ s) with (String h (old +++ s)).
  cbn [Py.replace_from].
  change (String h (old +++ s)) with (String h old +++ s).
  rewrite prefix_append.
  replace (String.length (String h old) - 1) with (String.length old)
    by (cbn [String.length]; lia).
  now rewrite replace_from_skip.
Qed.

(** Line feeds at the end of a text without other line feeds are
    removed. *)
Lemma replace_trailing_newline (s : string) :
  no_line_feed s = true ->
  Py.replace Py.newline "" (s +++ Py.newline) = s.
Proof.
  unfold no_line_feed, Py.replace, Py.newline.
  induction s as [|c s IH]; intros H.
  - cbn. destruct (ascii_dec Py.LF Py.LF); [reflexivity | congruence].
  - cbn [all_chars] in H. apply andb_true_iff in H as [Hc H].
    cbn [String.append Py.replace_from String.prefix].
    destruct (ascii_dec Py.LF c) as [<-|_].
    + rewrite Ascii.eqb_refl in Hc. discriminate.
    + now rewrite (IH H).
Qed.

(** The image id that line 349 reads off the output of an untagged
    image. *)
Lemma image_id_of_untagged_output (image_id : string) :
  all_chars is_hex_digit image_id = true ->
  Py.replace "Loaded image ID: sha256:" ""
    (Py.replace Py.newline ""
       ("Loaded image ID: sha256:" +++ image_id +++ Py.newline))
  = image_id.
Proof.
  intros Hhex.
  change ("Loaded image ID: sha256:" +++ image_id +++ Py.newline)
    with (("Loaded image ID: sha256:" +++ image_id) +++ Py.newline).
  rewrite replace_trailing_newline.
  - unfold Py.replace. rewrite replace_from_match.
    cbn [String.append]. apply replace_from_without_head.
    revert Hhex. apply all_chars_impl, hex_digit_is_not. reflexivity.
  - unfold no_line_feed. rewrite all_chars_append.
    apply andb_true_iff. split; [reflexivity|].
    revert Hhex. apply all_chars_impl, hex_digit_is_not. reflexivity.
Qed.

(** X12.  When the load command succeeds and prints
    ["Loaded image ID: sha256:"], an id made of hexadecimal digits and a
    line feed, the tag command awaited is [docker tag] of that id and the
    target tag, and no other tag command is awaited. *)
Theorem untagged_image_is_tagged_with_its_id :
  forall (exit_code_of : Container -> Z) (stdout_of : Container -> string)
         (settings : GlobalSettings) (tar_file : File) (image_tag : string)
         (docker_service_name : option string) (uuid4 image_id : string),
    let docker_cli := loader_cli settings tar_file docker_service_name uuid4 in
    all_chars is_hex_digit image_id = true ->
    exit_code_of (load_of docker_cli uuid4) = 0%Z ->
    stdout_of (load_of docker_cli uuid4)
    = "Loaded image ID: sha256:" +++ image_id +++ Py.newline ->
    tag_commands
      (snd (run (load_image_to_docker_host exit_code_of stdout_of settings
                   tar_file image_tag docker_service_name uuid4)))
    = [["docker"; "tag"; image_id; image_tag]].
Proof.
  intros exit_code_of stdout_of settings tar_file image_tag name uuid4
    image_id docker_cli Hhex Hload Hout.
  rewrite load_image_to_docker_host_run. fold docker_cli.
  rewrite Hload, Hout. cbn [Z.eqb].
  rewrite image_id_of_untagged_output by exact Hhex.
  change ("Loaded image ID: sha256:" +++ image_id +++ Py.newline)
    with ("Loaded image ID: " +++ "sha256:" +++ image_id +++ Py.newline).
  rewrite contains_append.
  destruct (exit_code_of (removal_of docker_cli image_tag uuid4) =? 0)%Z;
    destruct (exit_code_of (tag_of docker_cli image_id image_tag) =? 0)%Z;
    read_trace; reflexivity.
Qed.

Lemma untagged_image_is_tagged_with_its_id_witness :
  tag_commands
    (snd (run (load_image_to_docker_host removal_fails
                 (load_prints
                    ("Loaded image ID: sha256:" +++ "9f86d081884c7d65"
                     +++ Py.newline))
                 sample_settings sample_tar "connector:dev" None "0b1f")))
  = [["docker"; "tag"; "9f86d081884c7d65"; "connector:dev"]].
Proof.
  exact (untagged_image_is_tagged_with_its_id removal_fails
           (load_prints
              ("Loaded image ID: sha256:" +++ "9f86d081884c7d65"
               +++ Py.newline))
           sample_settings sample_tar "connector:dev" None "0b1f"
           "9f86d081884c7d65" eq_refl eq_refl eq_refl).
Defined.

(* ================================================================= *)
(** ** The containers the loader runs its commands on *)

Lemma loader_cli_steps (settings : GlobalSettings) (tar_file : File)
    (docker_service_name : option string) (uuid4 : string) :
  loader_cli settings tar_file docker_service_name uuid4
  = [From (DOCKER_CLI_IMAGE settings);
     WithEnvVariable "DOCKER_HOST"
       ("tcp://" +++ docker_lib_volume_name None docker_service_name
        +++ ":2375");
     WithServiceBinding (docker_lib_volume_name None docker_service_name)
       (with_dockerd_service settings None docker_service_name);
     WithMountedFile (uuid4 +++ ".tar") tar_file].
Proof.
  unfold loader_cli, with_docker_cli.
  rewrite with_bound_docker_host_steps. reflexivity.
Qed.

Ltac awaited_cases :=
  repeat match goal with
    | H : _ \/ _ |- _ => destruct H as [H|H]
    | H : In _ _ |- _ => cbn [In app] in H
    | H : False |- _ => contradiction
    | H : AwaitStdout _ = AwaitStdout _ |- _ => injection H as <-
    | H : AwaitExitCode _ = AwaitExitCode _ |- _ => injection H as <-
    | H : _ = _ |- _ => discriminate H
    end.

(** X13.  Every command of [load_image_to_docker_host] runs on the
    docker CLI image bound to the daemon of the service name, with the
    archive mounted at the file name, [uuid4] followed by [.tar], that the
    load command reads.  The [CACHEBUSTER] variable is set, to that file
    name, on the container of the removal only: the load and the tag
    commands run without it. *)
Theorem loader_commands_run_on_bound_cli :
  forall (exit_code_of : Container -> Z) (stdout_of : Container -> string)
         (settings : GlobalSettings) (tar_file : File) (image_tag : string)
         (docker_service_name : option string) (uuid4 : string),
    let trace :=
      snd (run (load_image_to_docker_host exit_code_of stdout_of settings
                  tar_file image_tag docker_service_name uuid4)) in
    let hostname := docker_lib_volume_name None docker_service_name in
    (forall c : Container,
        In (AwaitExitCode c) trace \/ In (AwaitStdout c) trace ->
        hd_error c = Some (From (DOCKER_CLI_IMAGE settings))
        /\ file_mounts c = [(uuid4 +++ ".tar", tar_file)]
        /\ env_variable "DOCKER_HOST" c
           = Some ("tcp://" +++ hostname +++ ":2375")
        /\ service_bindings c
           = [(hostname,
               with_dockerd_service settings None docker_service_name)])
    /\ (forall c : Container,
          In (AwaitExitCode c) trace ->
          env_variable "CACHEBUSTER" c = Some (uuid4 +++ ".tar"))
    /\ (forall c : Container,
          In (AwaitStdout c) trace -> env_variable "CACHEBUSTER" c = None)
    /\ In ["docker"; "load"; "--input"; uuid4 +++ ".tar"] (awaited trace).
Proof.
  intros exit_code_of stdout_of settings tar_file image_tag name uuid4
    trace hostname.
  subst trace. rewrite load_image_to_docker_host_run.
  set (docker_cli := loader_cli settings tar_file name uuid4).
  set (image_id :=
         Py.replace "Loaded image ID: sha256:" ""
           (Py.replace Py.newline "" (stdout_of (load_of docker_cli uuid4)))).
  assert (Hremoval :
    forall tag, removal_of docker_cli tag uuid4
    = [From (DOCKER_CLI_IMAGE settings);
       WithEnvVariable "DOCKER_HOST" ("tcp://" +++ hostname +++ ":2375");
       WithServiceBinding hostname (with_dockerd_service settings None name);
       WithMountedFile (uuid4 +++ ".tar") tar_file;
       WithEnvVariable "CACHEBUSTER" (uuid4 +++ ".tar");
       WithExec ["docker"; "image"; "rm"; tag] false]).
  { intros tag. unfold removal_of, docker_cli.
    now rewrite loader_cli_steps. }
  assert (Hload :
    load_of docker_cli uuid4
    = [From (DOCKER_CLI_IMAGE settings);
       WithEnvVariable "DOCKER_HOST" ("tcp://" +++ hostname +++ ":2375");
       WithServiceBinding hostname (with_dockerd_service settings None name);
       WithMountedFile (uuid4 +++ ".tar") tar_file;
       WithExec ["docker"; "load"; "--input"; uuid4 +++ ".tar"] false]).
  { unfold load_of, docker_cli. now rewrite loader_cli_steps. }
  assert (Htag :
    forall id tag, tag_of docker_cli id tag
    = [From (DOCKER_CLI_IMAGE settings);
       WithEnvVariable "DOCKER_HOST" ("tcp://" +++ hostname +++ ":2375");
       WithServiceBinding hostname (with_dockerd_service settings None name);
       WithMountedFile (uuid4 +++ ".tar") tar_file;
       WithExec ["docker"; "tag"; id; tag] false]).
  { intros id tag. unfold tag_of, docker_cli. now rewrite loader_cli_steps. }
  destruct (exit_code_of (removal_of docker_cli image_tag uuid4) =? 0)%Z;
    destruct (exit_code_of (load_of docker_cli uuid4) =? 0)%Z;
    destruct (Py.contains "sha256:" (stdout_of (load_of docker_cli uuid4)));
    destruct (exit_code_of (tag_of docker_cli image_id image_tag) =? 0)%Z;
    cbn [snd app];
    (split; [|split; [|split]]);
    try (intros c H; awaited_cases;
         rewrite ?Hremoval, ?Hload, ?Htag; repeat split; reflexivity);
    read_trace; right; left; reflexivity.
Qed.

Lemma loader_commands_run_on_bound_cli_witness :
  env_variable "CACHEBUSTER"
    (load_of (loader_cli sample_settings sample_tar None "0b1f") "0b1f")
  = None.
Proof.
  apply (proj1 (proj2 (proj2
           (loader_commands_run_on_bound_cli all_succeed
              (load_prints tagged_output) sample_settings sample_tar
              "myimg:latest" None "0b1f")))).
  cbn. tauto.
Defined.

(* ================================================================= *)
(** ** The poetry module and crane *)

(** X14.  [with_poetry_module] never raises.  Its container is the one of
    [with_poetry] with the parent directory mounted at [/src], the working
    directory set to [/src/] followed by the module path, [poetry install]
    run there, and last the [CACHEBUSTER] variable set to the drawn uuid:
    the variable is not set when [poetry install] runs, and the only cache
    of the container is the pip cache. *)
Theorem with_poetry_module_steps :
  forall (parent_dir : Directory) (module_path uuid4 : string),
    exists python_with_poetry before : Container,
      with_poetry = Ok python_with_poetry
      /\ with_poetry_module parent_dir module_path uuid4
         = Ok (before ++ [WithEnvVariable "CACHEBUSTER" uuid4])
      /\ before
         = python_with_poetry
           ++ [WithMountedDirectory "/src" parent_dir;
               WithWorkdir ("/src/" +++ module_path);
               WithExec ["poetry"; "install"] false]
      /\ last_exec before = Some ["poetry"; "install"]
      /\ env_variable "CACHEBUSTER" before = None
      /\ workdir before = Some ("/src/" +++ module_path)
      /\ directory_mounts before = [("/src", parent_dir)]
      /\ cache_mounts before
         = [("/root/.cache/pip", cache_volume "pip_cache", None)]
      /\ commands before
         = [["pip"; "install"; "--upgrade"; "pip"];
            ["apt-get"; "update"];
            ["apt-get"; "install"; "-y"; "git"];
            ["pip"; "install"; "poetry"];
            ["poetry"; "install"]].
Proof.
  intros parent_dir module_path uuid4.
  eexists. eexists. split; [reflexivity|].
  split; [reflexivity|]. repeat split.
Qed.

(** X15.  [with_crane] logs in to the registry exactly when the user
    name and the password of the settings are both set and not empty:
    then the two credentials are bound as secrets, under
    [DOCKER_HUB_USERNAME] and [DOCKER_HUB_PASSWORD], and the login command
    follows them; otherwise the container is the crane image alone.  In
    both cases the container has no plain environment variable, and its
    only command, if any, is the login command, which is the same for all
    credentials. *)
Theorem with_crane_logs_in_with_both_credentials :
  forall username password : option string,
    let crane := with_crane username password in
    let image :=
      Plain (From "gcr.io/go-containerregistry/crane/debug:v0.15.1") in
    ((exists (a b : ascii) (u p : string),
         username = Some (String a u) /\ password = Some (String b p))
     <-> crane_commands crane = [crane_login_cmd])
    /\ (crane_commands crane = [] <-> crane = [image])
    /\ (crane_commands crane = [] \/ crane_commands crane = [crane_login_cmd])
    /\ (forall u p : string,
          username = Some u -> password = Some p ->
          crane_commands crane = [crane_login_cmd] ->
          crane
          = [image;
             WithSecretVariable "DOCKER_HUB_USERNAME"
               (set_secret "docker_hub_username" u);
             WithSecretVariable "DOCKER_HUB_PASSWORD"
               (set_secret "docker_hub_password" p);
             WithExecSkipEntrypoint crane_login_cmd])
    /\ crane_plain_env crane = [].
Proof.
  intros username password crane image. subst crane image.
  destruct username as [[|a u]|]; destruct password as [[|b p]|];
    cbn; repeat split; auto;
    try discriminate;
    try (intros (a' & b' & u' & p' & H1 & H2); discriminate);
    try (intros u' p' H1 H2 H; discriminate).
  - intros _. now exists a, b, u, p.
  - intros u' p' H1 H2 _. injection H1 as <-. injection H2 as <-. reflexivity.
Qed.

Lemma with_crane_logs_in_with_both_credentials_witness :
  crane_commands (with_crane (Some "ci-bot") None) <> [crane_login_cmd]
  /\ crane_secrets (with_crane (Some "ci-bot") None) = [].
Proof.
  split; [|reflexivity].
  intros H.
  destruct (proj2 (proj1 (with_crane_logs_in_with_both_credentials
                            (Some "ci-bot") None)) H)
    as (a & b & u & p & _ & Hp).
  discriminate Hp.
Defined.

(* ================================================================= *)
(** ** The empty service name *)

(** X16.  An empty service name is no service name: the daemon, the bound
    client, the docker CLI, the gradle container and the run of the image
    loader are the same for [""] as for [None], with no hyphen added to
    the host name, whatever the slug of the empty string. *)
Theorem empty_service_name_is_no_service_name :
  forall (exit_code_of : Container -> Z) (stdout_of : Container -> string)
         (settings : GlobalSettings) (container : Container)
         (shared_volume : option (string * CacheVolume))
         (sources_to_include : option (list string))
         (bind_to_docker_host : bool) (tar_file : File)
         (image_tag uuid4 : string),
    with_dockerd_service settings shared_volume (Some "")
    = with_dockerd_service settings shared_volume None
    /\ with_bound_docker_host settings container shared_volume (Some "")
       = with_bound_docker_host settings container shared_volume None
    /\ with_docker_cli settings shared_volume (Some "")
       = with_docker_cli settings shared_volume None
    /\ with_gradle settings sources_to_include bind_to_docker_host (Some "")
       = with_gradle settings sources_to_include bind_to_docker_host None
    /\ run (load_image_to_docker_host exit_code_of stdout_of settings tar_file
              image_tag (Some "") uuid4)
       = run (load_image_to_docker_host exit_code_of stdout_of settings
                tar_file image_tag None uuid4)
    /\ daemon_storage (with_dockerd_service settings None (Some ""))
       = Some "docker-lib".
Proof.
  intros. repeat split; reflexivity.
Qed.
